(** * ClassGuard AI backend: attendance summaries, the auto-lock rule and
      the document handlers

    A shallow embedding of [main.py]: the attendance handlers
    ([attendance_summary], [manual_lock], [manual_unlock]), the handlers
    that fetch and list documents ([get_student], [get_certificate],
    [get_idcard], [get_resume], [list_notes], [list_notifications]),
    [create_doubt], and the helpers [_collection] and [_as_str_id]; and of
    the [Student], [AttendanceLog] and [Doubt] schemas of [schemas.py].

    - Python [int] is [Z]; Python [float] is the kernel's binary64 [float],
      whose operations are specified by [SpecFloat] at [prec = 53],
      [emax = 1024].
    - A MongoDB document is a finite map from field names to BSON values; a
      collection is the list of its documents in natural order.
    - A handler is a computation in a state-and-exception monad over the
      database and the journal of the storage calls it issued. *)

From Stdlib Require Import ZArith Floats Lia Bool Ascii String DecimalString Sorted.
From stdpp Require Import base option strings gmap list.

Open Scope string_scope.
Open Scope Z_scope.

(* ===================================================================== *)
(** ** Python values: exceptions, results, floats *)
(* ===================================================================== *)

Module Py.

(** The exceptions the handlers can raise. [HTTPException] is the one
    [main.py] raises itself; [RequestValidationError] is FastAPI's, for a
    parameter that violates its [Query] declaration; [InvalidId] is
    [bson.errors.InvalidId]; the others are Python's own. *)
Inductive exn : Type :=
| HTTPException (status_code : Z) (detail : string)
| RequestValidationError
| InvalidId
| KeyError (key : string)
| ZeroDivisionError
| OverflowError.

Inductive result (A : Type) : Type :=
| Return (a : A)
| Raise (e : exn).
Arguments Return {A} a.
Arguments Raise {A} e.

(** The status line FastAPI answers with: an [HTTPException] carries its
    own, a validation error is 422, anything unhandled is 500. *)
Definition http_status {A} (r : result A) : Z :=
  match r with
  | Return _ => 200
  | Raise (HTTPException c _) => c
  | Raise RequestValidationError => 422
  | Raise _ => 500
  end.

(** An integer as an (unnormalised) float specification: [z * 2^0]. *)
Definition SF_of_Z (z : Z) : spec_float :=
  match z with
  | Z0 => S754_zero false
  | Zpos p => S754_finite false p 0
  | Zneg p => S754_finite true p 0
  end.

(** [a / b] on Python ints: the correctly rounded quotient (round to
    nearest, ties to even), [ZeroDivisionError] on a zero divisor and
    [OverflowError] when the quotient is out of the range of a float. *)
Definition int_truediv (a b : Z) : result float :=
  if b =? 0 then Raise ZeroDivisionError
  else match SF64div (SF_of_Z a) (SF_of_Z b) with
       | S754_infinity _ => Raise OverflowError
       | q => Return (SF2Prim q)
       end.

(** The integer nearest to [n * 2^e], ties to the even one. *)
Definition round_half_even (n e : Z) : Z :=
  if 0 <=? e then n * 2 ^ e
  else let d := 2 ^ (- e) in
       let q := n / d in
       match 2 * (n mod d) ?= d with
       | Lt => q
       | Gt => q + 1
       | Eq => if Z.even q then q else q + 1
       end.

(** [round(x, 2)]: CPython prints the exact value of [x] correctly rounded
    to two digits after the point (ties to even) and reads the decimal
    back, so the result is the float nearest to [k / 100] where [k] is the
    integer nearest to [100 * x]. Zeros, infinities and NaN round to
    themselves. *)
Definition round2 (x : float) : float :=
  match Prim2SF x with
  | S754_finite s m e =>
      match round_half_even (100 * Zpos m) e with
      | Zpos k => SF2Prim (SF64div (S754_finite s k 0) (S754_finite false 100 0))
      | _ => SF2Prim (S754_zero s)
      end
  | _ => x
  end.

End Py.
Export Py.

(* ===================================================================== *)
(** ** BSON values and documents *)
(* ===================================================================== *)

Module Bson.

(** The BSON values the [student] and [attendancelog] schemas store. An
    [ObjectId] is its bytes; a date is its milliseconds since the epoch. *)
Inductive value : Type :=
| VNull
| VBool (b : bool)
| VInt (z : Z)
| VStr (s : string)
| VObjectId (bytes : list N)
| VDate (millis : Z).

#[global] Instance value_eq_dec : EqDecision value.
Proof. solve_decision. Defined.

Definition value_eqb (v w : value) : bool := bool_decide (v = w).

(** Python's [bool(v)] on the value a field holds. *)
Definition truthy (v : value) : bool :=
  match v with
  | VNull => false
  | VBool b => b
  | VInt z => negb (z =? 0)
  | VStr s => match s with EmptyString => false | String _ _ => true end
  | VObjectId _ => true
  | VDate _ => true
  end.

Abbreviation document := (gmap string value).

(** [doc.get(key, dflt)] *)
Definition get (doc : document) (key : string) (dflt : value) : value :=
  default dflt (doc !! key).

(** [Py_ISSPACE] *)
Definition is_space (c : ascii) : bool :=
  let n := N_of_ascii c in
  (((9 <=? n) && (n <=? 13)) || (n =? 32))%N.

(** [_PyLong_DigitValue], restricted to the hexadecimal digits. *)
Definition hex_digit (c : ascii) : option N :=
  let n := N_of_ascii c in
  if ((48 <=? n) && (n <=? 57))%N then Some (n - 48)%N
  else if ((97 <=? n) && (n <=? 102))%N then Some (n - 87)%N
  else if ((65 <=? n) && (n <=? 70))%N then Some (n - 55)%N
  else None.

(** [bytes.fromhex]: pairs of hexadecimal digits, white space allowed
    between the pairs; [None] stands for its [ValueError]. *)
Fixpoint fromhex (s : string) : option (list N) :=
  match s with
  | EmptyString => Some []
  | String c rest =>
      if is_space c then fromhex rest
      else match rest with
           | EmptyString => None
           | String d rest' =>
               match hex_digit c, hex_digit d with
               | Some hi, Some lo =>
                   match fromhex rest' with
                   | Some bs => Some ((16 * hi + lo)%N :: bs)
                   | None => None
                   end
               | _, _ => None
               end
           end
  end.

(** [bson.ObjectId(oid)] on a [str]: twenty-four characters that
    [bytes.fromhex] accepts, [InvalidId] otherwise. *)
Definition ObjectId (oid : string) : result (list N) :=
  if (String.length oid =? 24)%nat then
    match fromhex oid with
    | Some bs => Return bs
    | None => Raise InvalidId
    end
  else Raise InvalidId.

(** [bson]'s encoding of a [datetime], here its microseconds since the
    epoch: the milliseconds, the rest truncated. *)
Definition datetime_to_millis (micros : Z) : Z := micros / 1000.

(** One hexadecimal digit, lower case. *)
Definition hex_char (n : N) : ascii :=
  ascii_of_N (if (n <? 10)%N then n + 48 else n + 87)%N.

(** [binascii.hexlify(bytes).decode()] *)
Fixpoint hexlify (bs : list N) : string :=
  match bs with
  | [] => EmptyString
  | b :: rest => String (hex_char (b / 16)) (String (hex_char (b mod 16)) (hexlify rest))
  end.

(** [str(n)] on an int. *)
Definition str_int (z : Z) : string := NilZero.string_of_int (Z.to_int z).

(** A non-negative number in decimal, padded with zeros to [width]
    digits. *)
Definition zero_padded (width : nat) (z : Z) : string :=
  let digits := str_int z in
  String.concat EmptyString (repeat "0" (width - String.length digits)) ++ digits.

(** The proleptic Gregorian date of a day count from 1970-01-01. *)
Definition civil_from_days (days : Z) : Z * Z * Z :=
  let z := days + 719468 in
  let era := z / 146097 in
  let doe := z - era * 146097 in
  let yoe := (doe - doe / 1460 + doe / 36524 - doe / 146096) / 365 in
  let doy := doe - (365 * yoe + yoe / 4 - yoe / 100) in
  let mp := (5 * doy + 2) / 153 in
  let d := doy - (153 * mp + 2) / 5 + 1 in
  let m := if mp <? 10 then mp + 3 else mp - 9 in
  let y := yoe + era * 400 + (if m <=? 2 then 1 else 0) in
  (y, m, d).

(** [str(dt)] on the naive [datetime] a BSON date decodes to (years 1 to
    9999): the ISO format with a space, and the microseconds when there
    are any. *)
Definition str_datetime (millis : Z) : string :=
  let '(y, m, d) := civil_from_days (millis / 86400000) in
  let ms := millis mod 86400000 in
  let frac := ms mod 1000 in
  zero_padded 4 y ++ "-" ++ zero_padded 2 m ++ "-" ++ zero_padded 2 d ++ " "
  ++ zero_padded 2 (ms / 3600000) ++ ":" ++ zero_padded 2 (ms / 60000 mod 60) ++ ":"
  ++ zero_padded 2 (ms / 1000 mod 60)
  ++ (if frac =? 0 then EmptyString else "." ++ zero_padded 6 (frac * 1000)).

(** Python's [str(v)] on the value a field holds. *)
Definition str (v : value) : string :=
  match v with
  | VNull => "None"
  | VBool true => "True"
  | VBool false => "False"
  | VInt z => str_int z
  | VStr s => s
  | VObjectId bs => hexlify bs
  | VDate millis => str_datetime millis
  end.

End Bson.
Export Bson.

(* ===================================================================== *)
(** ** The document store *)
(* ===================================================================== *)

Module Mongo.

(** The conditions the handlers' filters use: [{field: v}] and
    [{field: {"$gte": date}}]. A comparison with a date selects dates
    only. *)
Inductive cond : Type :=
| Is (v : value)
| GteDate (millis : Z).

Abbreviation query := (list (string * cond)).

(** [{"$set": {...}}] *)
Abbreviation update := (list (string * value)).

Definition cond_holds (c : cond) (field : option value) : bool :=
  match c, field with
  | Is w, Some v => value_eqb v w
  | Is w, None => value_eqb VNull w
  | GteDate since, Some (VDate t) => since <=? t
  | GteDate _, _ => false
  end.

Definition matches (q : query) (doc : document) : bool :=
  forallb (fun '(field, c) => cond_holds c (doc !! field)) q.

Definition apply_set (u : update) (doc : document) : document :=
  fold_left (fun d '(field, v) => <[field := v]> d) u doc.

Abbreviation collection := (list document).

(** [find_one]: the first matching document in natural order. *)
Definition find_one (q : query) (c : collection) : option document :=
  List.find (matches q) c.

(** [list(find(...))] *)
Definition find (q : query) (c : collection) : list document :=
  List.filter (matches q) c.

(** [update_one]: the update applied to the first matching document; the
    second component is [matched_count]. *)
Fixpoint update_one (q : query) (u : update) (c : collection) : collection * Z :=
  match c with
  | [] => ([], 0)
  | doc :: rest =>
      if matches q doc then (apply_set u doc :: rest, 1)
      else let '(rest', n) := update_one q u rest in (doc :: rest', n)
  end.

Abbreviation database := (gmap string (list document)).

(** [db[name]]: a collection that was never written to is empty. *)
Definition coll (d : database) (name : string) : collection :=
  default [] (d !! name).

(** The storage calls a handler issues, in order. *)
Inductive call : Type :=
| FindOne (name : string) (q : query)
| Find (name : string) (q : query)
| UpdateOne (name : string) (q : query) (u : update).

Definition is_write (c : call) : bool :=
  match c with
  | UpdateOne _ _ _ => true
  | _ => false
  end.









End Mongo.
Export Mongo.

(* ===================================================================== *)
(** ** Handlers as computations *)
(* ===================================================================== *)

(** [db] is the module-level handle of [database.py] ([None] when the
    connection is not configured); [journal] records the storage calls. *)
Record World : Type := mkWorld {
  db : option database;
  journal : list call
}.

Definition M (A : Type) : Type := World -> result A * World.

#[global] Instance M_ret : MRet M := fun A a w => (Return a, w).

#[global] Instance M_bind : MBind M := fun A B f m w =>
  match m w with
  | (Return a, w') => f a w'
  | (Raise e, w') => (Raise e, w')
  end.

Definition raise {A} (e : exn) : M A := fun w => (Raise e, w).

Definition lift {A} (r : result A) : M A := fun w => (r, w).

Definition record (c : call) (w : World) : World :=
  {| db := db w; journal := journal w ++ [c] |}.

Definition stored (w : World) (name : string) : collection :=
  match db w with
  | Some d => coll d name
  | None => []
  end.

Module Collection.

Definition find_one (name : string) (q : query) : M (option document) :=
  fun w => (Return (Mongo.find_one q (stored w name)), record (FindOne name q) w).

Definition find (name : string) (q : query) : M (list document) :=
  fun w => (Return (Mongo.find q (stored w name)), record (Find name q) w).

(** The result is [matched_count]. An update that matches nothing leaves
    the database as it is. *)
Definition update_one (name : string) (q : query) (u : update) : M Z :=
  fun w =>
    let '(c', n) := Mongo.update_one q u (stored w name) in
    (Return n,
     {| db := if n =? 0 then db w else (fun d => <[name := c']> d) <$> db w;
        journal := journal w ++ [UpdateOne name q u] |}).


End Collection.

(** [doc[key]] *)
Definition getitem (doc : document) (key : string) : M value :=
  match doc !! key with
  | Some v => mret v
  | None => raise (KeyError key)
  end.

(** [sum(xs)] *)
Definition sum (xs : list Z) : Z := fold_left Z.add xs 0.

(* ===================================================================== *)
(** ** schemas.py: the attendance record *)
(* ===================================================================== *)

Module Schemas.

Inductive Mode : Type := face | fingerprint | rfid | geo | random_ai.

Inductive Status : Type := status_present | status_absent.

Record AttendanceLog : Type := {
  student_id : string;
  subject_id : option string;
  batch_id : option string;
  mode : Mode;
  status : Status;
  device_id : option string;
  proxy_detected : bool;
  timestamp : Z
}.

(** [AttendanceLog(...)]: a field the payload leaves out takes the default
    the class declares; [utcnow] is the clock the [timestamp] factory
    reads. *)
Definition AttendanceLog_init
    (student_id : string) (subject_id batch_id : option string) (mode : Mode)
    (status : option Status) (device_id : option string)
    (proxy_detected : option bool) (timestamp : option Z) (utcnow : Z)
  : AttendanceLog :=
  {| student_id := student_id;
     subject_id := subject_id;
     batch_id := batch_id;
     mode := mode;
     status := default status_present status;
     device_id := device_id;
     proxy_detected := default false proxy_detected;
     timestamp := default utcnow timestamp |}.

Definition Mode_str (m : Mode) : string :=
  match m with
  | face => "face"
  | fingerprint => "fingerprint"
  | rfid => "rfid"
  | geo => "geo"
  | random_ai => "random_ai"
  end.

Definition Status_str (s : Status) : string :=
  match s with
  | status_present => "present"
  | status_absent => "absent"
  end.

Definition opt_str (o : option string) : value :=
  match o with
  | Some s => VStr s
  | None => VNull
  end.

(** [model_dump()], as the document the store receives. *)
Definition model_dump (a : AttendanceLog) : document :=
  <["student_id" := VStr (student_id a)]>
  (<["subject_id" := opt_str (subject_id a)]>
  (<["batch_id" := opt_str (batch_id a)]>
  (<["mode" := VStr (Mode_str (mode a))]>
  (<["status" := VStr (Status_str (status a))]>
  (<["device_id" := opt_str (device_id a)]>
  (<["proxy_detected" := VBool (proxy_detected a)]>
  (<["timestamp" := VDate (datetime_to_millis (timestamp a))]> ∅))))))).





Record Doubt : Type := {
  doubt_user_id : string;
  doubt_category : string;
  question : string;
  answer : option string;
  images : list string;
  created_at : Z
}.

End Schemas.

(* ===================================================================== *)
(** ** main.py *)
(* ===================================================================== *)

Module Main.

Definition _collection (name : string) : M string :=
  fun w =>
    match db w with
    | None => (Raise (HTTPException 500 "Database not configured"), w)
    | Some _ => (Return name, w)
    end.

Record AttendanceSummary : Type := {
  total : Z;
  present : Z;
  absent : Z;
  percentage : float;
  locked_for_attendance : bool
}.

(** [l.get("status", "present") == "present"] *)
Definition counts_present (l : document) : bool :=
  value_eqb (get l "status" (VStr "present")) (VStr "present").

(** [timedelta(days=days)], in microseconds. *)
Definition timedelta_days (days : Z) : Z := days * 86400000000.

(** [round((present / total) * 100, 2) if total else 0.0] *)
Definition percentage_of (present total : Z) : result float :=
  if negb (total =? 0) then
    match int_truediv present total with
    | Return q => Return (round2 (q * 100)%float)
    | Raise e => Raise e
    end
  else Return 0%float.

(** The body of the handler; [days] has passed the [Query] declaration,
    [utcnow] is what [datetime.utcnow()] reads, in microseconds. *)
Definition attendance_summary (student_id : string) (days : Z) (utcnow : Z)
  : M AttendanceSummary :=
  students ← _collection "student";
  oid ← lift (ObjectId student_id);
  student ← Collection.find_one students [("_id", Is (VObjectId oid))];
  match student with
  | None => raise (HTTPException 404 "Student not found")
  | Some student =>
      if bool_decide (student = ∅) then raise (HTTPException 404 "Student not found")
      else
        let since := utcnow - timedelta_days days in
        attendancelog ← _collection "attendancelog";
        logs ← Collection.find attendancelog
                 [("student_id", Is (VStr student_id));
                  ("timestamp", GteDate (datetime_to_millis since))];
        let total := Z.of_nat (length logs) in
        let present := sum (map (fun _ => 1) (List.filter counts_present logs)) in
        let absent := total - present in
        percentage ← lift (percentage_of present total);
        let locked := truthy (get student "locked_for_attendance" (VBool false)) in
        locked ←
          (if value_eqb (get student "category" VNull) (VStr "engineering") then
             let should_lock := (percentage <? 75)%float in
             if negb (Bool.eqb should_lock locked) then
               students ← _collection "student";
               _id ← getitem student "_id";
               _ ← Collection.update_one students [("_id", Is _id)]
                     [("locked_for_attendance", VBool should_lock)];
               mret should_lock
             else mret locked
           else mret locked);
        mret {| total := total; present := present; absent := absent;
                percentage := percentage; locked_for_attendance := locked |}
  end.

(** A query parameter as the request carries it: left out, not an
    integer, or an integer. *)
Inductive param : Type := Absent | Malformed | Given (n : Z).

(** [Query(dflt, ge=lo, le=hi)] on an [int] parameter. *)
Definition Query (dflt lo hi : Z) (p : param) : result Z :=
  match p with
  | Absent => Return dflt
  | Malformed => Raise RequestValidationError
  | Given n => if (lo <=? n) && (n <=? hi) then Return n
               else Raise RequestValidationError
  end.

(** [GET /api/students/{student_id}/attendance/summary]: FastAPI checks
    the declared parameters, then calls the handler. *)
Definition get_attendance_summary (student_id : string) (days : param) (utcnow : Z)
  : M AttendanceSummary :=
  days ← lift (Query 120 1 365 days);
  attendance_summary student_id days utcnow.

Definition manual_lock (student_id : string) : M document :=
  students ← _collection "student";
  oid ← lift (ObjectId student_id);
  matched_count ← Collection.update_one students [("_id", Is (VObjectId oid))]
                    [("locked_for_attendance", VBool true)];
  if matched_count =? 0 then raise (HTTPException 404 "Student not found")
  else mret {[ "locked" := VBool true ]}.

Definition manual_unlock (student_id : string) : M document :=
  students ← _collection "student";
  oid ← lift (ObjectId student_id);
  matched_count ← Collection.update_one students [("_id", Is (VObjectId oid))]
                    [("locked_for_attendance", VBool false)];
  if matched_count =? 0 then raise (HTTPException 404 "Student not found")
  else mret {[ "locked" := VBool false ]}.

(** [_as_str_id]: the [_id] of a document moves to the field [id], as a
    string. An empty document, or one without [_id], comes back as it
    is. *)
Definition _as_str_id (doc : document) : document :=
  if bool_decide (doc = ∅) then doc
  else match doc !! "_id" with
       | Some _id => <["id" := VStr (str _id)]> (delete "_id" doc)
       | None => doc
       end.

Definition get_student (student_id : string) : M document :=
  students ← _collection "student";
  oid ← lift (ObjectId student_id);
  doc ← Collection.find_one students [("_id", Is (VObjectId oid))];
  match doc with
  | None => raise (HTTPException 404 "Student not found")
  | Some doc =>
      if bool_decide (doc = ∅) then raise (HTTPException 404 "Student not found")
      else mret (_as_str_id doc)
  end.

Definition get_certificate (cert_id : string) : M document :=
  certificates ← _collection "certificate";
  oid ← lift (ObjectId cert_id);
  doc ← Collection.find_one certificates [("_id", Is (VObjectId oid))];
  match doc with
  | None => raise (HTTPException 404 "Certificate not found")
  | Some doc =>
      if bool_decide (doc = ∅) then raise (HTTPException 404 "Certificate not found")
      else mret (_as_str_id doc)
  end.

Definition get_idcard (card_id : string) : M document :=
  idcards ← _collection "idcard";
  oid ← lift (ObjectId card_id);
  doc ← Collection.find_one idcards [("_id", Is (VObjectId oid))];
  match doc with
  | None => raise (HTTPException 404 "ID Card not found")
  | Some doc =>
      if bool_decide (doc = ∅) then raise (HTTPException 404 "ID Card not found")
      else mret (_as_str_id doc)
  end.

Definition get_resume (student_id : string) : M document :=
  resumes ← _collection "resume";
  doc ← Collection.find_one resumes [("student_id", Is (VStr student_id))];
  match doc with
  | None => raise (HTTPException 404 "Resume not found")
  | Some doc =>
      if bool_decide (doc = ∅) then raise (HTTPException 404 "Resume not found")
      else mret (_as_str_id doc)
  end.

(** [if s:] on an optional string parameter: given and not empty. *)
Definition given (s : option string) : bool :=
  match s with
  | Some (String _ _) => true
  | _ => false
  end.




(** The answer [create_doubt] fills in. *)
Definition placeholder_answer : string :=
  "This is a placeholder explanation. In production, this will be answered by the AI solver with steps, formulas, and diagrams.".

Section CreateDoubt.

(** [create_document] of [database.py], which is not part of the sources:
    it stores the payload in the named collection and returns the new
    identifier. *)
Variable create_document : string -> Schemas.Doubt -> M string.

Definition create_doubt (payload : Schemas.Doubt) : M document :=
  let payload :=
    if given (Schemas.answer payload) then payload
    else {| Schemas.doubt_user_id := Schemas.doubt_user_id payload;
            Schemas.doubt_category := Schemas.doubt_category payload;
            Schemas.question := Schemas.question payload;
            Schemas.answer := Some placeholder_answer;
            Schemas.images := Schemas.images payload;
            Schemas.created_at := Schemas.created_at payload |} in
  _id ← create_document "doubt" payload;
  mret (<["id" := VStr _id]> {[ "answer" := Schemas.opt_str (Schemas.answer payload) ]}).

End CreateDoubt.

End Main.
Export Main.

(* ===================================================================== *)
(** ** Specification vocabulary *)
(* ===================================================================== *)

(** The filter [{"_id": oid}]. *)
Definition by_id (oid : list N) : query := [("_id", Is (VObjectId oid))].

(** The student record an identifier selects in the store. *)
Definition student_of (w : World) (oid : list N) : option document :=
  Mongo.find_one (by_id oid) (stored w "student").

(** The lock state of a student record, as the handler reads it. *)
Definition locked_of (student : document) : bool :=
  truthy (get student "locked_for_attendance" (VBool false)).

(** The student is on the track the auto-lock rule applies to. *)
Definition engineering (student : document) : bool :=
  value_eqb (get student "category" VNull) (VStr "engineering").

(** The attendance records of a student inside the window. *)
Definition retrieved (w : World) (student_id : string) (days utcnow : Z)
  : list document :=
  Mongo.find
    [("student_id", Is (VStr student_id));
     ("timestamp", GteDate (datetime_to_millis (utcnow - timedelta_days days)))]
    (stored w "attendancelog").

(** The number of records that count as present. *)
Definition presences (logs : list document) : Z :=
  Z.of_nat (length (List.filter counts_present logs)).

(** The storage writes among the calls of a journal. *)
Definition writes (j : list call) : list call := List.filter is_write j.

(** [setLock(studentId, locked)]: the two manual operations as one. *)
Definition setLock (student_id : string) (locked : bool) : M document :=
  if locked then manual_lock student_id else manual_unlock student_id.

(** The filter of the attendance query. *)
Definition window (student_id : string) (days utcnow : Z) : query :=
  [("student_id", Is (VStr student_id));
   ("timestamp", GteDate (datetime_to_millis (utcnow - timedelta_days days)))].

(** The lock state a call reports: the policy value [percentage < 75.0]
    for an engineering student, the stored value for any other. *)
Definition decided_lock (student : document) (pct : float) : bool :=
  if engineering student then (pct <? 75)%float else locked_of student.

(** The call writes: the student is an engineering student and the policy
    value differs from the stored one. *)
Definition rule_writes (student : document) (pct : float) : bool :=
  engineering student && negb (Bool.eqb (pct <? 75)%float (locked_of student)).

(** The identifier selects no student record. *)
Definition unknown_student (w : World) (student_id : string) : Prop :=
  forall oid, ObjectId student_id = Return oid -> student_of w oid = None.

(** A small store to run the handlers on: one student and the attendance
    records of that student. *)
Module Scenario.

Definition sid : string := "0123456789abcdef01234567".

Definition oid : list N := [1; 35; 69; 103; 137; 171; 205; 239; 1; 35; 69; 103]%N.

Definition student (category : string) : document :=
  <["_id" := VObjectId oid]> (<["category" := VStr category]> ∅).

Definition locked_student (category : string) (locked : bool) : document :=
  <["locked_for_attendance" := VBool locked]> (student category).

Definition log (status : string) (millis : Z) : document :=
  <["student_id" := VStr sid]>
  (<["status" := VStr status]> (<["timestamp" := VDate millis]> ∅)).

Definition world (students logs : list document) : World :=
  {| db := Some (<["student" := students]> (<["attendancelog" := logs]> ∅));
     journal := [] |}.

(** Seven records present, three absent. *)
Definition seven_of_ten : list document :=
  (repeat (log "present" 1000) 7 ++ repeat (log "absent" 1000) 3)%list.



(** An unlocked engineering student with seven presences out of ten. *)
Definition unlocked : World :=
  world [locked_student "engineering" false] seven_of_ten.

(** An engineering student whose record has no lock field and no
    attendance record. *)
Definition fresh : World := world [student "engineering"] [].

(** A store without students. *)
Definition empty : World := world [] [].

End Scenario.

(** The document an identifier selects in a collection. *)
Definition fetched (w : World) (name : string) (oid : list N) : option document :=
  Mongo.find_one (by_id oid) (stored w name).

(** Every byte is below 256. *)
Definition octets (bs : list N) : Prop := Forall (fun b => (b < 256)%N) bs.

(** The handlers that fetch a document by its identifier, with the
    collection each reads and the detail of its 404. *)
Inductive fetcher : Type := Fstudent | Fcertificate | Fidcard.

Definition fetcher_run (f : fetcher) : string -> M document :=
  match f with
  | Fstudent => get_student
  | Fcertificate => get_certificate
  | Fidcard => get_idcard
  end.

Definition fetcher_collection (f : fetcher) : string :=
  match f with
  | Fstudent => "student"
  | Fcertificate => "certificate"
  | Fidcard => "idcard"
  end.

Definition fetcher_detail (f : fetcher) : string :=
  match f with
  | Fstudent => "Student not found"
  | Fcertificate => "Certificate not found"
  | Fidcard => "ID Card not found"
  end.








(* ===================================================================== *)
(** ** Binary64 arithmetic: rounding stays within half a unit *)
(* ===================================================================== *)

Lemma digits2_pos_bounds (p : positive) :
  2 ^ (Zpos (digits2_pos p) - 1) <= Zpos p < 2 ^ Zpos (digits2_pos p).
Proof.
  induction p as [p IH | p IH |]; cbn [digits2_pos].
  - rewrite Pos2Z.inj_succ, (Pos2Z.inj_xI p).
    replace (Z.succ (Zpos (digits2_pos p)) - 1) with (Z.succ (Zpos (digits2_pos p) - 1)) by lia.
    rewrite !Z.pow_succ_r by lia.
    destruct IH as [IH1 IH2]. revert IH1 IH2.
    generalize (2 ^ (Zpos (digits2_pos p) - 1)) (2 ^ Zpos (digits2_pos p)). lia.
  - rewrite Pos2Z.inj_succ, (Pos2Z.inj_xO p).
    replace (Z.succ (Zpos (digits2_pos p)) - 1) with (Z.succ (Zpos (digits2_pos p) - 1)) by lia.
    rewrite !Z.pow_succ_r by lia.
    destruct IH as [IH1 IH2]. revert IH1 IH2.
    generalize (2 ^ (Zpos (digits2_pos p) - 1)) (2 ^ Zpos (digits2_pos p)). lia.
  - cbn. lia.
Qed.

Lemma Zdigits2_bounds (m : Z) :
  0 < m -> 2 ^ (Zdigits2 m - 1) <= m < 2 ^ Zdigits2 m.
Proof.
  destruct m as [|p|p]; try lia. intros _. apply digits2_pos_bounds.
Qed.



Lemma iter_pos_nat {A} (f : A -> A) (p : positive) (x : A) :
  SpecFloat.iter_pos f p x = Nat.iter (Pos.to_nat p) f x.
Proof.
  revert x. induction p as [p IH | p IH |]; intros x; cbn [SpecFloat.iter_pos].
  - rewrite !IH, Pos2Nat.inj_xI. cbn [Nat.iter].
    rewrite <- Nat.iter_add, Nat.iter_succ_r. f_equal. lia.
  - rewrite !IH, Pos2Nat.inj_xO. rewrite <- Nat.iter_add. f_equal. lia.
  - reflexivity.
Qed.


Lemma located_of_loc (X D m : Z) (l : location) :
  shr_m (shr_record_of_loc m l) = m.
Proof. destruct l as [|[| |]]; reflexivity. Qed.












(** *** No overflow *)

Lemma shr_1_m (mrs : shr_record) :
  0 <= shr_m mrs -> shr_m (shr_1 mrs) = shr_m mrs / 2.
Proof.
  destruct mrs as [m r s]. cbn [shr_m]. intros Hm.
  destruct m as [|[p|p|]|]; try lia; cbn [shr_1 shr_m];
    rewrite ?(Pos2Z.inj_xI p), ?(Pos2Z.inj_xO p).
  - reflexivity.
  - apply Z.div_unique with 1; lia.
  - apply Z.div_unique with 0; lia.
  - reflexivity.
Qed.

Lemma shr_iter_m (n : nat) (mrs : shr_record) :
  0 <= shr_m mrs ->
  shr_m (Nat.iter n shr_1 mrs) = shr_m mrs / 2 ^ Z.of_nat n.
Proof.
  intros Hm. induction n as [|n IH].
  - cbn [Nat.iter]. rewrite Z.pow_0_r, Z.div_1_r. reflexivity.
  - change (Nat.iter (S n) shr_1 mrs) with (shr_1 (Nat.iter n shr_1 mrs)).
    assert (Hp : 0 < 2 ^ Z.of_nat n) by (apply Z.pow_pos_nonneg; lia).
    rewrite shr_1_m by (rewrite IH; apply Z.div_pos; lia).
    rewrite IH, Nat2Z.inj_succ, Z.pow_succ_r by lia.
    rewrite Z.div_div by lia. f_equal. ring.
Qed.

(** The mantissa and the exponent after [shr_fexp]. *)
Lemma shr_fexp_m (m e : Z) (l : location) :
  0 <= m ->
  let e' := Z.max e (fexp prec emax (Zdigits2 m + e)) in
  shr_m (fst (shr_fexp prec emax m e l)) = m / 2 ^ (e' - e) /\
  snd (shr_fexp prec emax m e l) = e'.
Proof.
  intros Hm e'. unfold shr_fexp, shr.
  destruct (fexp prec emax (Zdigits2 m + e) - e) as [|p|p] eqn:En; cbn [fst snd].
  - replace (e' - e) with 0 by (unfold e'; lia).
    rewrite Z.pow_0_r, Z.div_1_r, (located_of_loc 0 1). split; [reflexivity | unfold e'; lia].
  - rewrite iter_pos_nat, shr_iter_m, positive_nat_Z by (rewrite (located_of_loc 0 1); exact Hm).
    rewrite (located_of_loc 0 1).
    replace (e' - e) with (Zpos p) by (unfold e'; lia).
    split; [reflexivity | unfold e'; lia].
  - replace (e' - e) with 0 by (unfold e'; lia).
    rewrite Z.pow_0_r, Z.div_1_r, (located_of_loc 0 1). split; [reflexivity | unfold e'; lia].
Qed.

Lemma Zdigits2_le (m k : Z) : 0 <= m < 2 ^ k -> 0 <= k -> Zdigits2 m <= k.
Proof.
  intros [Hm Hk] Hk0. destruct (Z.eq_dec m 0) as [-> | Hne]; [cbn; lia|].
  destruct (Zdigits2_bounds m ltac:(lia)) as [Hlo _].
  destruct (Z_le_gt_dec (Zdigits2 m) k) as [H | H]; [exact H|].
  pose proof (Z.pow_le_mono_r 2 k (Zdigits2 m - 1)). lia.
Qed.

Lemma Zdigits2_nonneg (m : Z) : 0 <= Zdigits2 m.
Proof. destruct m; cbn; lia. Qed.

(** A value below [2^(emax - 1)] does not round to an infinity. *)
Lemma binary_round_aux_finite (sx : bool) (mx ex : Z) (lx : location) (s : bool) :
  0 <= mx -> ex <= emax - prec -> Zdigits2 mx + ex <= emax - 1 ->
  binary_round_aux prec emax sx mx ex lx <> S754_infinity s.
Proof.
  intros Hmx Hex Hmag. unfold binary_round_aux.
  destruct (shr_fexp_m mx ex lx Hmx) as [Hm1 He1].
  destruct (shr_fexp prec emax mx ex lx) as [mrs1 e1]. cbn [fst snd] in Hm1, He1.
  cbv zeta in Hm1, He1. rewrite <- He1 in Hm1.
  set (mr := round_nearest_even (shr_m mrs1) (loc_of_shr_record mrs1)).
  assert (Hp1 : 0 < 2 ^ (e1 - ex)) by (apply Z.pow_pos_nonneg; lia).
  assert (Hm1' : 0 <= shr_m mrs1) by (rewrite Hm1; apply Z.div_pos; lia).
  assert (Hmr : shr_m mrs1 <= mr <= shr_m mrs1 + 1).
  { unfold mr. destruct mrs1 as [m [|] [|]]; cbn [shr_m loc_of_shr_record round_nearest_even];
      try destruct (Z.even m); lia. }
  (* the magnitude grows by at most one binary digit *)
  assert (Hmag1 : Zdigits2 (shr_m mrs1) + e1 <= Z.max e1 (Zdigits2 mx + ex)).
  { destruct (Z_le_gt_dec (Zdigits2 mx) (e1 - ex)) as [Hle | Hgt].
    - assert (shr_m mrs1 = 0); [|replace (shr_m mrs1) with 0; cbn; lia].
      rewrite Hm1. apply Z.div_small. split; [lia|].
      destruct (Z.eq_dec mx 0) as [-> | Hne]; [lia|].
      destruct (Zdigits2_bounds mx ltac:(lia)) as [_ Hhi].
      pose proof (Z.pow_le_mono_r 2 (Zdigits2 mx) (e1 - ex)). lia.
    - assert (Zdigits2 (shr_m mrs1) <= Zdigits2 mx - (e1 - ex)); [|lia].
      apply Zdigits2_le; [|lia]. split; [lia|].
      rewrite Hm1. apply Z.div_lt_upper_bound; [lia|].
      rewrite <- Z.pow_add_r by lia.
      replace (e1 - ex + (Zdigits2 mx - (e1 - ex))) with (Zdigits2 mx) by lia.
      destruct (Z.eq_dec mx 0) as [-> | Hne]; [cbn; lia|].
      apply (Zdigits2_bounds mx). lia. }
  assert (Hdr : Zdigits2 mr <= Zdigits2 (shr_m mrs1) + 1).
  { apply Zdigits2_le; [|pose proof (Zdigits2_nonneg (shr_m mrs1)); lia].
    split; [lia|].
    rewrite Z.pow_add_r by (pose proof (Zdigits2_nonneg (shr_m mrs1)); lia).
    destruct (Z.eq_dec (shr_m mrs1) 0) as [E0 | Hne].
    - rewrite E0 in *. cbn. lia.
    - destruct (Zdigits2_bounds (shr_m mrs1) ltac:(lia)) as [_ Hhi]. lia. }
  destruct (shr_fexp_m mr e1 loc_Exact ltac:(lia)) as [Hm2 He2].
  destruct (shr_fexp prec emax mr e1 loc_Exact) as [mrs2 e2]. cbn [fst snd] in Hm2, He2.
  cbv zeta in Hm2, He2.
  destruct (shr_m mrs2) as [|m|m]; try discriminate.
  destruct (Z.leb_spec e2 (emax - prec)) as [_ | Hbad]; [discriminate|].
  exfalso. revert Hbad. subst e2 e1. unfold fexp, emin, emax, prec in *. lia.
Qed.

(** The quotient of a positive integer by one at least as large is never
    out of range. *)
Lemma SFdiv_int_finite (p t : positive) (s : bool) :
  (p <= t)%positive ->
  SF64div (S754_finite false p 0) (S754_finite false t 0) <> S754_infinity s.
Proof.
  intros Hpt. unfold SF64div, SFdiv, SFdiv_core_binary.
  set (d1 := Zdigits2 (Zpos p)). set (d2 := Zdigits2 (Zpos t)).
  destruct (Zdigits2_bounds (Zpos p) ltac:(lia)) as [Hp1 Hp2]. fold d1 in Hp1, Hp2.
  destruct (Zdigits2_bounds (Zpos t) ltac:(lia)) as [Ht1 Ht2]. fold d2 in Ht1, Ht2.
  assert (Hd12 : d1 <= d2).
  { destruct (Z_le_gt_dec d1 d2) as [H | H]; [exact H|].
    pose proof (Z.pow_le_mono_r 2 d2 (d1 - 1)). lia. }
  set (e' := Z.min (fexp prec emax (d1 + 0 - (d2 + 0))) (0 - 0)).
  assert (He' : e' < 0) by (unfold e', fexp, emin, emax, prec; lia).
  replace (0 - 0 - e') with (- e') by lia.
  destruct (- e') as [|sp|sp] eqn:Es; try lia. rewrite <- Es.
  rewrite Z.shiftl_mul_pow2 by lia.
  assert (Hps : 0 < 2 ^ (- e')) by (apply Z.pow_pos_nonneg; lia).
  pose proof (Z.div_pos (Zpos p * 2 ^ (- e')) (Zpos t) ltac:(lia) ltac:(lia)) as Hq0.
  assert (Hq1 : Zpos p * 2 ^ (- e') / Zpos t < 2 ^ (- e' + 1)).
  { apply Z.div_lt_upper_bound; [lia|].
    rewrite Z.pow_add_r, Z.pow_1_r by lia.
    assert (Zpos p * 2 ^ (- e') <= Zpos t * 2 ^ (- e')) by (apply Z.mul_le_mono_nonneg_r; lia).
    lia. }
  unfold Z.div in Hq0, Hq1.
  destruct (Z.div_eucl (Zpos p * 2 ^ (- e')) (Zpos t)) as [q r]. cbn [fst] in Hq0, Hq1.
  apply binary_round_aux_finite.
  - exact Hq0.
  - unfold emax, prec. lia.
  - pose proof (Zdigits2_le q (- e' + 1) (conj Hq0 Hq1) ltac:(lia)). unfold emax. lia.
Qed.

(** [present / total] returns whenever [0 <= present <= total] and
    [total] is not zero. *)
Lemma int_truediv_returns (p t : Z) :
  0 <= p <= t -> 0 < t -> exists q, int_truediv p t = Return q.
Proof.
  intros Hp Ht. unfold int_truediv.
  destruct (Z.eqb_spec t 0) as [-> | _]; [lia|].
  destruct t as [|tp|tp]; try lia.
  destruct p as [|pp|pp]; try lia.
  - cbn. eauto.
  - cbn [SF_of_Z].
    pose proof (fun s => SFdiv_int_finite pp tp s ltac:(lia)) as Hfin.
    destruct (SF64div (S754_finite false pp 0) (S754_finite false tp 0)) as [s|s| |s m e];
      eauto.
    exfalso. exact (Hfin s eq_refl).
Qed.

(** The percentage is computed without an exception for every pair of
    counters the handler can form. *)
Lemma percentage_of_returns (p t : Z) :
  0 <= p <= t -> exists f, percentage_of p t = Return f.
Proof.
  intros Hp. unfold percentage_of.
  destruct (Z.eqb_spec t 0) as [-> | Hne]; cbn [negb]; [eauto|].
  destruct (int_truediv_returns p t Hp ltac:(lia)) as [q ->]. eauto.
Qed.

(* ===================================================================== *)
(** ** The store: lookups and updates *)
(* ===================================================================== *)

Lemma matches_by_id (oid : list N) (doc : document) :
  matches (by_id oid) doc = true <-> doc !! "_id" = Some (VObjectId oid).
Proof.
  unfold matches, by_id. cbn [forallb cond_holds]. rewrite andb_true_r.
  unfold value_eqb. destruct (doc !! "_id") as [v|]; cbn [cond_holds].
  - rewrite bool_decide_eq_true. split; congruence.
  - rewrite bool_decide_eq_true. split; discriminate.
Qed.

Lemma find_one_Some (q : query) (c : collection) (doc : document) :
  Mongo.find_one q c = Some doc -> matches q doc = true /\ In doc c.
Proof. intros H. apply find_some in H. tauto. Qed.

Lemma update_one_found (q : query) (u : update) (c : collection) (doc : document) :
  Mongo.find_one q c = Some doc ->
  matches q (apply_set u doc) = true ->
  exists c', Mongo.update_one q u c = (c', 1) /\
             Mongo.find_one q c' = Some (apply_set u doc).
Proof.
  unfold Mongo.find_one. induction c as [|d c IH]; cbn [List.find Mongo.update_one]; [discriminate|].
  intros Hf Hm. destruct (matches q d) eqn:Ed.
  - injection Hf as ->. eexists. split; [reflexivity|]. cbn [List.find]. rewrite Hm. reflexivity.
  - destruct (IH Hf Hm) as (c' & -> & Hc'). eexists. split; [reflexivity|].
    cbn [List.find]. rewrite Ed. exact Hc'.
Qed.

Lemma update_one_not_found (q : query) (u : update) (c : collection) :
  Mongo.find_one q c = None -> Mongo.update_one q u c = (c, 0).
Proof.
  unfold Mongo.find_one. induction c as [|d c IH]; cbn [List.find Mongo.update_one]; [reflexivity|].
  destruct (matches q d); [discriminate|]. intros H. rewrite (IH H). reflexivity.
Qed.

Lemma update_one_matched (q : query) (u : update) (c : collection) :
  snd (Mongo.update_one q u c) = 0 <-> Mongo.find_one q c = None.
Proof.
  unfold Mongo.find_one. induction c as [|d c IH]; cbn [List.find Mongo.update_one]; [tauto|].
  destruct (matches q d); cbn [snd]; [split; [lia | discriminate]|].
  destruct (Mongo.update_one q u c) as [c' n]. exact IH.
Qed.

Lemma set_lock_matches (oid : list N) (b : bool) (doc : document) :
  matches (by_id oid) doc = true ->
  matches (by_id oid) (apply_set [("locked_for_attendance", VBool b)] doc) = true.
Proof.
  rewrite !matches_by_id. cbn [apply_set fold_left]. intros H.
  rewrite lookup_insert_ne by discriminate. exact H.
Qed.

Lemma locked_of_set (b : bool) (doc : document) :
  locked_of (apply_set [("locked_for_attendance", VBool b)] doc) = b.
Proof.
  unfold locked_of, get. cbn [apply_set fold_left]. rewrite lookup_insert_eq. reflexivity.
Qed.

Lemma stored_student_Some (w : World) (oid : list N) (student : document) :
  student_of w oid = Some student -> exists d, db w = Some d.
Proof.
  unfold student_of, stored. destruct (db w) as [d|]; [eauto | discriminate].
Qed.

Lemma sum_ones {A} (l : list A) : sum (map (fun _ => 1) l) = Z.of_nat (length l).
Proof.
  unfold sum. enough (H : forall acc, fold_left Z.add (map (fun _ : A => 1) l) acc
                                      = acc + Z.of_nat (length l)) by (rewrite H; lia).
  induction l as [|x l IH]; intros acc; cbn [map fold_left length].
  - lia.
  - rewrite IH. lia.
Qed.

Lemma presences_bounds (logs : list document) :
  0 <= presences logs <= Z.of_nat (length logs).
Proof.
  unfold presences. pose proof (filter_length_le counts_present logs). lia.
Qed.

(* ===================================================================== *)
(** ** attendance_summary, step by step *)
(* ===================================================================== *)

Lemma student_of_id (w : World) (oid : list N) (student : document) :
  student_of w oid = Some student -> student !! "_id" = Some (VObjectId oid).
Proof.
  intros H. apply find_one_Some in H. apply matches_by_id. tauto.
Qed.

(** What a call on an existing student returns and leaves behind, given the
    percentage the records yield. *)
Lemma attendance_summary_run (w : World) (d : database) (student_id : string)
    (days utcnow : Z) (oid : list N) (student : document) (pct : float) :
  db w = Some d ->
  ObjectId student_id = Return oid ->
  student_of w oid = Some student ->
  let logs := retrieved w student_id days utcnow in
  let n := Z.of_nat (length logs) in
  percentage_of (presences logs) n = Return pct ->
  attendance_summary student_id days utcnow w =
  (Return {| total := n; present := presences logs; absent := n - presences logs;
             percentage := pct; locked_for_attendance := decided_lock student pct |},
   if rule_writes student pct then
     {| db := Some (<["student" :=
                       fst (Mongo.update_one (by_id oid)
                              [("locked_for_attendance", VBool (pct <? 75)%float)]
                              (stored w "student"))]> d);
        journal := journal w ++
                   [FindOne "student" (by_id oid);
                    Find "attendancelog" (window student_id days utcnow);
                    UpdateOne "student" (by_id oid)
                      [("locked_for_attendance", VBool (pct <? 75)%float)]] |}
   else
     {| db := db w;
        journal := journal w ++
                   [FindOne "student" (by_id oid);
                    Find "attendancelog" (window student_id days utcnow)] |}).
Proof.
  intros Hdb Hoid Hst logs n Hpct.
  pose proof (student_of_id w oid student Hst) as Hid.
  assert (Hne : student <> ∅).
  { intros ->. rewrite lookup_empty in Hid. discriminate. }
  destruct w as [dbw j]. cbn [db] in Hdb. subst dbw.
  unfold attendance_summary, mbind, M_bind, _collection, lift. cbn [db].
  rewrite Hoid. unfold Collection.find_one at 1.
  change (Mongo.find_one [("_id", Is (VObjectId oid))] (stored (mkWorld (Some d) j) "student"))
    with (student_of (mkWorld (Some d) j) oid).
  rewrite Hst. rewrite bool_decide_eq_false_2 by exact Hne.
  unfold record. cbn [db journal]. unfold Collection.find.
  change (stored {| db := Some d; journal := j ++ [FindOne "student" [("_id", Is (VObjectId oid))]] |} "attendancelog")
    with (stored (mkWorld (Some d) j) "attendancelog").
  change (Mongo.find _ (stored (mkWorld (Some d) j) "attendancelog")) with logs.
  rewrite sum_ones. fold (presences logs). fold n. rewrite Hpct.
  unfold record. cbn [db journal].
  fold (locked_of student). fold (engineering student).
  unfold decided_lock, rule_writes.
  destruct (engineering student); cbn [andb].
  - destruct (Bool.eqb (pct <? 75)%float (locked_of student)) eqn:Eb; cbn [negb].
    + apply Bool.eqb_prop in Eb. unfold mret, M_ret. rewrite <- Eb.
      rewrite <- !app_assoc. reflexivity.
    + unfold getitem. rewrite Hid. unfold mret, M_ret, Collection.update_one.
      unfold student_of in Hst. cbn [db journal] in *.
      destruct (update_one_found (by_id oid) [("locked_for_attendance", VBool (pct <? 75)%float)]
                  _ _ Hst) as (c' & Hup & _).
      { apply set_lock_matches. apply matches_by_id. exact Hid. }
      change [("_id", Is (VObjectId oid))] with (by_id oid).
      change (stored {| db := Some d; journal := _ |} "student")
        with (stored (mkWorld (Some d) j) "student").
      rewrite Hup. cbn [fst fmap option_fmap option_map]. 
      rewrite <- !app_assoc. reflexivity.
  - unfold mret, M_ret. rewrite <- !app_assoc. reflexivity.
Qed.

(** Everything a call on an existing student does: the summary it returns,
    the calls it issues, and the student record it leaves in the store. *)
Lemma attendance_summary_outcome (w : World) (student_id : string)
    (days utcnow : Z) (oid : list N) (student : document) :
  ObjectId student_id = Return oid ->
  student_of w oid = Some student ->
  let logs := retrieved w student_id days utcnow in
  let n := Z.of_nat (length logs) in
  exists (pct : float) (w' : World) (student' : document),
    percentage_of (presences logs) n = Return pct /\
    attendance_summary student_id days utcnow w =
      (Return {| total := n; present := presences logs; absent := n - presences logs;
                 percentage := pct; locked_for_attendance := decided_lock student pct |},
       w') /\
    journal w' = (journal w ++
                    FindOne "student" (by_id oid) ::
                    Find "attendancelog" (window student_id days utcnow) ::
                    (if rule_writes student pct
                     then [UpdateOne "student" (by_id oid)
                             [("locked_for_attendance", VBool (pct <? 75)%float)]]
                     else []))%list /\
    (rule_writes student pct = false -> db w' = db w) /\
    stored w' "attendancelog" = stored w "attendancelog" /\
    student_of w' oid = Some student' /\
    locked_of student' = decided_lock student pct /\
    engineering student' = engineering student /\
    (rule_writes student pct = false -> student' = student).
Proof.
  intros Hoid Hst logs n.
  destruct (stored_student_Some w oid student Hst) as [d Hdb].
  destruct (percentage_of_returns (presences logs) n) as [pct Hpct].
  { unfold n. apply presences_bounds. }
  pose proof (attendance_summary_run w d student_id days utcnow oid student pct
                Hdb Hoid Hst Hpct) as Hrun.
  exists pct. unfold rule_writes, decided_lock in *.
  destruct (engineering student) eqn:Eeng; cbn [andb] in *;
    [destruct (Bool.eqb (pct <? 75)%float (locked_of student)) eqn:Eb; cbn [negb] in *|].
  - (* engineering, the stored state already agrees *)
    apply Bool.eqb_prop in Eb.
    eexists _, student. split; [exact Hpct|]. split; [exact Hrun|]. cbn [db journal].
    repeat split; auto.
  - (* engineering, the state is rewritten *)
    pose proof (student_of_id w oid student Hst) as Hid.
    unfold student_of in Hst.
    destruct (update_one_found (by_id oid) [("locked_for_attendance", VBool (pct <? 75)%float)]
                _ _ Hst) as (c' & Hup & Hfind).
    { apply set_lock_matches. apply matches_by_id. exact Hid. }
    rewrite Hup in Hrun. cbn [fst] in Hrun.
    eexists _, (apply_set [("locked_for_attendance", VBool (pct <? 75)%float)] student).
    split; [exact Hpct|]. split; [exact Hrun|]. cbn [db journal].
    repeat split.
    + discriminate.
    + unfold stored, coll. cbn [db]. rewrite lookup_insert_ne by discriminate.
      rewrite Hdb. reflexivity.
    + unfold student_of, stored, coll. cbn [db]. rewrite lookup_insert_eq. exact Hfind.
    + apply locked_of_set.
    + unfold engineering, get in *. cbn [apply_set fold_left].
      rewrite lookup_insert_ne by discriminate. exact Eeng.
    + discriminate.
  - eexists _, student. split; [exact Hpct|]. split; [exact Hrun|]. cbn [db journal].
    repeat split; auto.
Qed.

(* ===================================================================== *)
(** ** Comparison of floats *)
(* ===================================================================== *)



(* ===================================================================== *)
(** ** The claims of the specification *)
(* ===================================================================== *)





Lemma counts_present_iff (l : document) :
  counts_present l = true <->
  l !! "status" = Some (VStr "present") \/ l !! "status" = None.
Proof.
  unfold counts_present, get, value_eqb. rewrite bool_decide_eq_true.
  destruct (l !! "status") as [v|]; cbn.
  - split; [intros ->; auto | intros [H | H]; congruence].
  - split; auto.
Qed.

Lemma filter_partition_length {A} (f : A -> bool) (l : list A) :
  (length (List.filter f l) + length (List.filter (fun x => negb (f x)) l))%nat
  = length l.
Proof.
  induction l as [|x l IH]; cbn [List.filter length]; [reflexivity|].
  destruct (f x); cbn [negb length]; lia.
Qed.

(** C3. In the summary a call returns, [present] counts the retrieved
    records whose status field reads "present" or is missing, and [absent]
    counts all the others; a record built by the schema without a status
    carries the default "present" and so counts as present. *)
Theorem C3_present_count (w : World) (student_id : string) (days utcnow : Z)
    (oid : list N) (student : document) :
  ObjectId student_id = Return oid ->
  student_of w oid = Some student ->
  let logs := retrieved w student_id days utcnow in
  exists (s : AttendanceSummary) (w' : World),
    attendance_summary student_id days utcnow w = (Return s, w') /\
    present s = Z.of_nat (length (List.filter counts_present logs)) /\
    absent s = Z.of_nat (length (List.filter (fun l => negb (counts_present l)) logs)) /\
    (forall l : document,
       counts_present l = true <->
       l !! "status" = Some (VStr "present") \/ l !! "status" = None) /\
    (forall sid sub bat mode dev proxy ts now,
       let a := Schemas.AttendanceLog_init sid sub bat mode None dev proxy ts now in
       Schemas.status a = Schemas.status_present /\
       counts_present (Schemas.model_dump a) = true).
Proof.
  intros Hoid Hst logs.
  destruct (attendance_summary_outcome w student_id days utcnow oid student Hoid Hst)
    as (pct & w' & student' & _ & Hrun & _).
  eexists _, w'. split; [exact Hrun|]. cbn [present absent]. fold logs.
  split; [reflexivity|]. split.
  - unfold presences. pose proof (filter_partition_length counts_present logs). lia.
  - split; [exact counts_present_iff|].
    intros sid sub bat mode dev proxy ts now. cbv zeta. split; [reflexivity|].
    apply counts_present_iff. left. unfold Schemas.model_dump.
    repeat (rewrite lookup_insert_ne by discriminate). rewrite lookup_insert_eq. reflexivity.
Qed.

(** C4. In the summary a call returns, [present + absent = total]: the
    record counts are non-negative, [present] is at most [total] and
    [absent] is [total - present]. *)
Theorem C4_counts_add_up (w : World) (student_id : string) (days utcnow : Z)
    (oid : list N) (student : document) :
  ObjectId student_id = Return oid ->
  student_of w oid = Some student ->
  exists (s : AttendanceSummary) (w' : World),
    attendance_summary student_id days utcnow w = (Return s, w') /\
    total s = Z.of_nat (length (retrieved w student_id days utcnow)) /\
    present s + absent s = total s /\
    absent s = total s - present s /\
    0 <= present s <= total s /\ 0 <= absent s.
Proof.
  intros Hoid Hst.
  destruct (attendance_summary_outcome w student_id days utcnow oid student Hoid Hst)
    as (pct & w' & student' & _ & Hrun & _).
  eexists _, w'. split; [exact Hrun|]. cbn [total present absent].
  pose proof (presences_bounds (retrieved w student_id days utcnow)). lia.
Qed.

Lemma percentage_of_no_zero_division (present total : Z) :
  percentage_of present total <> Raise ZeroDivisionError.
Proof.
  unfold percentage_of, int_truediv.
  destruct (total =? 0); cbn [negb]; [discriminate|].
  destruct (SF64div (SF_of_Z present) (SF_of_Z total)); discriminate.
Qed.

(** C5. When no record is retrieved the call returns the percentage 0.0
    (and total 0); the quotient, which faults on a zero divisor, is never
    evaluated with one: the percentage never raises ZeroDivisionError. *)
Theorem C5_empty_window (w : World) (student_id : string) (days utcnow : Z)
    (oid : list N) (student : document) :
  ObjectId student_id = Return oid ->
  student_of w oid = Some student ->
  retrieved w student_id days utcnow = [] ->
  (exists (s : AttendanceSummary) (w' : World),
     attendance_summary student_id days utcnow w = (Return s, w') /\
     total s = 0 /\ percentage s = 0%float) /\
  (forall present : Z, int_truediv present 0 = Raise ZeroDivisionError) /\
  (forall present total : Z, percentage_of present total <> Raise ZeroDivisionError).
Proof.
  intros Hoid Hst Hempty. split; [|split].
  - destruct (attendance_summary_outcome w student_id days utcnow oid student Hoid Hst)
      as (pct & w' & student' & Hpct & Hrun & _).
    rewrite Hempty in Hpct, Hrun. cbn in Hpct. injection Hpct as <-.
    eexists _, w'. split; [exact Hrun|]. split; reflexivity.
  - reflexivity.
  - exact percentage_of_no_zero_division.
Qed.



(** C7, as the specification states it, fails: the identifier "S1" selects
    no student record of the scenario store, and the call answers 500 (the
    identifier is not an ObjectId), not 404. *)
Lemma C7_counterexample :
  ~ (forall (w : World) (student_id : string) (days utcnow : Z),
       unknown_student w student_id ->
       http_status (fst (attendance_summary student_id days utcnow w)) = 404).
Proof.
  intros H.
  specialize (H (Scenario.world [Scenario.student "engineering"] []) "S1" 120 0).
  assert (Hu : unknown_student (Scenario.world [Scenario.student "engineering"] []) "S1").
  { intros oid Hoid. vm_compute in Hoid. discriminate. }
  specialize (H Hu). vm_compute in H. discriminate.
Qed.

(** C7, amended. A call with an identifier that selects no student record
    fails, issues no write and leaves the store as it was; the failure is
    the 404 "Student not found" when the store is configured and the
    identifier is a well-formed ObjectId, the unhandled InvalidId (500) when
    the store is configured and the identifier is malformed, and the 500
    "Database not configured" when there is no store. *)
Theorem C7_unknown_student (w : World) (student_id : string) (days utcnow : Z) :
  unknown_student w student_id ->
  exists (e : exn) (w' : World),
    attendance_summary student_id days utcnow w = (Raise e, w') /\
    db w' = db w /\
    writes (journal w') = writes (journal w) /\
    (forall d oid, db w = Some d -> ObjectId student_id = Return oid ->
                   e = HTTPException 404 "Student not found") /\
    (forall d, db w = Some d -> ObjectId student_id = Raise InvalidId ->
               e = InvalidId) /\
    (db w = None -> e = HTTPException 500 "Database not configured").
Proof.
  intros Hu. destruct w as [[d|] j].
  - unfold attendance_summary, mbind, M_bind, _collection, lift. cbn [db].
    destruct (ObjectId student_id) as [oid|e] eqn:Hoid.
    + specialize (Hu oid Hoid). unfold Collection.find_one.
      change (Mongo.find_one [("_id", Is (VObjectId oid))] (stored (mkWorld (Some d) j) "student"))
        with (student_of (mkWorld (Some d) j) oid).
      rewrite Hu. unfold raise, record. cbn [db journal].
      eexists _, _. split; [reflexivity|]. cbn [db journal].
      split; [reflexivity|]. split.
      * unfold writes. rewrite List.filter_app. cbn. apply app_nil_r.
      * repeat split; intros; congruence.
    + eexists _, _. split; [reflexivity|]. cbn [db journal].
      repeat split; intros; congruence.
  - eexists _, _. split; [reflexivity|]. cbn [db journal].
    repeat split; intros; congruence.
Qed.

Lemma C7_witness :
  unknown_student (Scenario.world [] []) Scenario.sid /\
  exists (e : exn) (w' : World),
    attendance_summary Scenario.sid 120 0 (Scenario.world [] []) = (Raise e, w') /\
    db w' = db (Scenario.world [] []) /\
    writes (journal w') = writes (journal (Scenario.world [] [])) /\
    (forall d oid, db (Scenario.world [] []) = Some d ->
                   ObjectId Scenario.sid = Return oid ->
                   e = HTTPException 404 "Student not found") /\
    (forall d, db (Scenario.world [] []) = Some d ->
               ObjectId Scenario.sid = Raise InvalidId -> e = InvalidId) /\
    (db (Scenario.world [] []) = None ->
     e = HTTPException 500 "Database not configured").
Proof.
  assert (Hu : unknown_student (Scenario.world [] []) Scenario.sid).
  { intros oid _. vm_compute. reflexivity. }
  split; [exact Hu|].
  exact (C7_unknown_student (Scenario.world [] []) Scenario.sid 120 0 Hu).
Defined.

Lemma setLock_run (w : World) (d : database) (student_id : string) (locked : bool)
    (oid : list N) :
  db w = Some d ->
  ObjectId student_id = Return oid ->
  let u := [("locked_for_attendance", VBool locked)] in
  let r := Mongo.update_one (by_id oid) u (stored w "student") in
  setLock student_id locked w =
  (if snd r =? 0 then Raise (HTTPException 404 "Student not found")
   else Return {[ "locked" := VBool locked ]},
   {| db := if snd r =? 0 then db w else Some (<["student" := fst r]> d);
      journal := journal w ++ [UpdateOne "student" (by_id oid) u] |}).
Proof.
  intros Hdb Hoid u r. destruct w as [dbw j]. cbn [db] in Hdb. subst dbw.
  unfold setLock, manual_lock, manual_unlock.
  destruct locked; unfold mbind, M_bind, _collection, lift; cbn [db]; rewrite Hoid;
    unfold Collection.update_one; cbn [db journal];
    change [("_id", Is (VObjectId oid))] with (by_id oid); fold u; fold r;
    destruct r as [c' n]; cbn [fst snd]; destruct (n =? 0); reflexivity.
Qed.



Lemma Query_days_iff (p : param) (d : Z) :
  Query 120 1 365 p = Return d <->
  (p = Absent /\ d = 120) \/ (p = Given d /\ 1 <= d <= 365).
Proof.
  unfold Query. destruct p as [| |n].
  - split; [intros [= <-]; auto | intros [[_ ->] | [H _]]; [reflexivity | discriminate]].
  - split; [discriminate | intros [[H _] | [H _]]; discriminate].
  - destruct (Z.leb_spec 1 n) as [H1 | H1], (Z.leb_spec n 365) as [H2 | H2]; cbn [andb];
      (split; [intros E | intros [[E _] | [E H]]]);
      try discriminate; try (injection E as <-); try lia; auto.
Qed.

(** C9. [days] is accepted exactly when it is left out, and then is 120,
    or is an integer from 1 to 365, and then is itself; any other value is
    rejected with the validation error before the handler runs: nothing is
    read from the store and nothing is written. *)
Theorem C9_days_window :
  (forall (p : param) (d : Z),
     Query 120 1 365 p = Return d <->
     (p = Absent /\ d = 120) \/ (p = Given d /\ 1 <= d <= 365)) /\
  (forall (p : param) (d : Z) (student_id : string) (utcnow : Z) (w : World),
     Query 120 1 365 p = Return d ->
     get_attendance_summary student_id p utcnow w
     = attendance_summary student_id d utcnow w) /\
  (forall (p : param) (student_id : string) (utcnow : Z) (w : World),
     (forall d, Query 120 1 365 p <> Return d) ->
     get_attendance_summary student_id p utcnow w = (Raise RequestValidationError, w) /\
     http_status (fst (get_attendance_summary student_id p utcnow w)) = 422) /\
  (forall n : Z, ~ 1 <= n <= 365 -> forall d, Query 120 1 365 (Given n) <> Return d).
Proof.
  split; [exact Query_days_iff|]. split; [|split].
  - intros p d student_id utcnow w H.
    unfold get_attendance_summary, mbind, M_bind, lift. rewrite H. reflexivity.
  - intros p student_id utcnow w H.
    unfold get_attendance_summary, mbind, M_bind, lift.
    destruct (Query 120 1 365 p) as [d|e] eqn:E; [destruct (H d eq_refl)|].
    assert (e = RequestValidationError) as ->.
    { unfold Query in E. destruct p as [| |n]; [discriminate | congruence |].
      destruct ((1 <=? n) && (n <=? 365)); congruence. }
    split; reflexivity.
  - intros n Hn d H. apply Query_days_iff in H. destruct H as [[H _] | [[= <-] H]];
      [discriminate | lia].
Qed.

(* ===================================================================== *)
(** ** The percentage is the nearest hundredth *)
(* ===================================================================== *)








Set Warnings "-inexact-float".




Lemma C3_witness :
  exists (s : AttendanceSummary) (w' : World),
    attendance_summary Scenario.sid 120 0 Scenario.unlocked = (Return s, w') /\
    present s = Z.of_nat (length (List.filter counts_present
                                    (retrieved Scenario.unlocked Scenario.sid 120 0))) /\
    absent s = Z.of_nat (length (List.filter (fun l => negb (counts_present l))
                                   (retrieved Scenario.unlocked Scenario.sid 120 0))) /\
    (forall l : document,
       counts_present l = true <->
       l !! "status" = Some (VStr "present") \/ l !! "status" = None) /\
    (forall sid sub bat mode dev proxy ts now,
       let a := Schemas.AttendanceLog_init sid sub bat mode None dev proxy ts now in
       Schemas.status a = Schemas.status_present /\
       counts_present (Schemas.model_dump a) = true).
Proof.
  apply (C3_present_count Scenario.unlocked Scenario.sid 120 0 Scenario.oid
           (Scenario.locked_student "engineering" false)).
  - reflexivity.
  - reflexivity.
Defined.

Lemma C4_witness :
  exists (s : AttendanceSummary) (w' : World),
    attendance_summary Scenario.sid 120 0 Scenario.unlocked = (Return s, w') /\
    total s = Z.of_nat (length (retrieved Scenario.unlocked Scenario.sid 120 0)) /\
    present s + absent s = total s /\
    absent s = total s - present s /\
    0 <= present s <= total s /\ 0 <= absent s.
Proof.
  apply (C4_counts_add_up Scenario.unlocked Scenario.sid 120 0 Scenario.oid
           (Scenario.locked_student "engineering" false)).
  - reflexivity.
  - reflexivity.
Defined.

Lemma C5_witness :
  (exists (s : AttendanceSummary) (w' : World),
     attendance_summary Scenario.sid 120 0 Scenario.fresh = (Return s, w') /\
     total s = 0 /\ percentage s = 0%float) /\
  (forall present : Z, int_truediv present 0 = Raise ZeroDivisionError) /\
  (forall present total : Z, percentage_of present total <> Raise ZeroDivisionError).
Proof.
  apply (C5_empty_window Scenario.fresh Scenario.sid 120 0 Scenario.oid
           (Scenario.student "engineering")).
  - reflexivity.
  - reflexivity.
  - reflexivity.
Defined.


(* ===================================================================== *)
(** ** Beyond the specification: identifiers as strings *)
(* ===================================================================== *)

Lemma hex_char_digit (n : N) :
  (n < 16)%N -> hex_digit (hex_char n) = Some n /\ is_space (hex_char n) = false.
Proof.
  intros Hn.
  destruct n as [|p]; [split; reflexivity|].
  do 4 (try destruct p as [p|p|]); try (split; reflexivity); lia.
Qed.

Lemma fromhex_hexlify (bs : list N) :
  octets bs -> fromhex (hexlify bs) = Some bs.
Proof.
  induction 1 as [|b bs Hb _ IH]; [reflexivity|].
  cbn [hexlify fromhex].
  assert (Hhi : (b / 16 < 16)%N) by (apply N.Div0.div_lt_upper_bound; lia).
  assert (Hlo : (b mod 16 < 16)%N) by (apply N.mod_lt; lia).
  destruct (hex_char_digit _ Hhi) as [Hd1 Hs1].
  destruct (hex_char_digit _ Hlo) as [Hd2 _].
  rewrite Hs1, Hd1, Hd2, IH. do 2 f_equal.
  rewrite (N.div_mod b 16) at 3 by lia. reflexivity.
Qed.

Lemma length_hexlify (bs : list N) :
  String.length (hexlify bs) = (2 * length bs)%nat.
Proof.
  induction bs as [|b bs IH]; [reflexivity|].
  cbn [hexlify String.length length]. rewrite IH. lia.
Qed.

Lemma hex_digit_lt (c : ascii) (n : N) : hex_digit c = Some n -> (n < 16)%N.
Proof.
  unfold hex_digit. set (k := N_of_ascii c).
  destruct ((48 <=? k) && (k <=? 57))%N eqn:E1; [intros [= <-]|].
  { apply andb_true_iff in E1. destruct E1 as [H1 H2].
    apply N.leb_le in H1, H2. lia. }
  destruct ((97 <=? k) && (k <=? 102))%N eqn:E2; [intros [= <-]|].
  { apply andb_true_iff in E2. destruct E2 as [H1 H2].
    apply N.leb_le in H1, H2. lia. }
  destruct ((65 <=? k) && (k <=? 70))%N eqn:E3; [intros [= <-]|discriminate].
  apply andb_true_iff in E3. destruct E3 as [H1 H2].
  apply N.leb_le in H1, H2. lia.
Qed.

Lemma fromhex_octets (n : nat) (s : string) (bs : list N) :
  (String.length s <= n)%nat -> fromhex s = Some bs -> octets bs.
Proof.
  revert s bs. induction n as [|n IH]; intros s bs Hlen.
  - destruct s; [intros [= <-]; constructor | cbn in Hlen; lia].
  - destruct s as [|c rest]; [intros [= <-]; constructor|].
    cbn [fromhex]. cbn [String.length] in Hlen.
    destruct (is_space c); [apply IH; lia|].
    destruct rest as [|d rest']; [discriminate|].
    destruct (hex_digit c) as [hi|] eqn:Ehi; [|discriminate].
    destruct (hex_digit d) as [lo|] eqn:Elo; [|discriminate].
    destruct (fromhex rest') as [bs'|] eqn:Erest; [|discriminate].
    intros [= <-]. constructor.
    + apply hex_digit_lt in Ehi, Elo. lia.
    + apply (IH rest'); [cbn [String.length] in Hlen; lia | exact Erest].
Qed.

Lemma ObjectId_octets (s : string) (bs : list N) :
  ObjectId s = Return bs -> octets bs.
Proof.
  unfold ObjectId.
  destruct (String.length s =? 24)%nat; [|discriminate].
  destruct (fromhex s) as [bs'|] eqn:E; [|discriminate].
  intros [= <-]. exact (fromhex_octets _ s bs' (le_n _) E).
Qed.

Lemma ObjectId_hexlify (bs : list N) :
  octets bs -> length bs = 12%nat -> ObjectId (hexlify bs) = Return bs.
Proof.
  intros Hoct Hlen.
  assert (H24 : String.length (hexlify bs) = 24%nat) by (rewrite length_hexlify; lia).
  unfold ObjectId. rewrite H24, (fromhex_hexlify bs Hoct). reflexivity.
Qed.

(** X1. The bytes [ObjectId] reads from a string are octets, and the
    string of a twelve-byte identifier reads back as that identifier:
    [ObjectId(str(oid)) == oid]. *)
Theorem ObjectId_str_roundtrip :
  (forall s bs, ObjectId s = Return bs -> octets bs) /\
  (forall bs, octets bs -> length bs = 12%nat ->
              String.length (str (VObjectId bs)) = 24%nat /\
              ObjectId (str (VObjectId bs)) = Return bs).
Proof.
  split; [exact ObjectId_octets|].
  intros bs Hoct Hlen. cbn [str]. split.
  - rewrite length_hexlify. lia.
  - exact (ObjectId_hexlify bs Hoct Hlen).
Qed.

Lemma ObjectId_str_roundtrip_witness :
  octets Scenario.oid /\ length Scenario.oid = 12%nat /\
  String.length (str (VObjectId Scenario.oid)) = 24%nat /\
  ObjectId (str (VObjectId Scenario.oid)) = Return Scenario.oid.
Proof.
  assert (H : octets Scenario.oid) by (unfold octets; repeat constructor).
  split; [exact H|]. split; [reflexivity|].
  exact (proj2 ObjectId_str_roundtrip Scenario.oid H eq_refl).
Defined.

(* ===================================================================== *)
(** ** Beyond the specification: fetching documents *)
(* ===================================================================== *)

Lemma as_str_id_lookup (doc : document) :
  _as_str_id doc !! "_id" = None /\
  _as_str_id doc !! "id" =
    match doc !! "_id" with
    | Some v => Some (VStr (str v))
    | None => doc !! "id"
    end /\
  (forall field : string,
     field <> "_id" -> field <> "id" -> _as_str_id doc !! field = doc !! field).
Proof.
  unfold _as_str_id. destruct (bool_decide (doc = ∅)) eqn:Eempty.
  - apply bool_decide_eq_true in Eempty. subst doc.
    rewrite !lookup_empty. auto.
  - destruct (doc !! "_id") as [v|] eqn:Eid.
    + split; [|split].
      * rewrite lookup_insert_ne by discriminate. apply lookup_delete_eq.
      * apply lookup_insert_eq.
      * intros field H1 H2.
        rewrite lookup_insert_ne by congruence. apply lookup_delete_ne. congruence.
    + auto.
Qed.

(** X2. [_as_str_id] leaves no [_id] behind; [id] becomes the string of
    the former [_id], replacing any [id] the document had, and stays as it
    was when there is no [_id]; every other field is untouched. *)
Theorem as_str_id_fields (doc : document) :
  _as_str_id doc !! "_id" = None /\
  _as_str_id doc !! "id" =
    match doc !! "_id" with
    | Some v => Some (VStr (str v))
    | None => doc !! "id"
    end /\
  (forall field : string,
     field <> "_id" -> field <> "id" -> _as_str_id doc !! field = doc !! field).
Proof. exact (as_str_id_lookup doc). Qed.

(** X3. [_as_str_id] is idempotent. *)
Theorem as_str_id_idempotent (doc : document) :
  _as_str_id (_as_str_id doc) = _as_str_id doc.
Proof.
  destruct (as_str_id_lookup doc) as [Hnone _].
  unfold _as_str_id at 1. rewrite Hnone.
  destruct (bool_decide (_as_str_id doc = ∅)); reflexivity.
Qed.

Lemma fetched_id (w : World) (name : string) (oid : list N) (doc : document) :
  fetched w name oid = Some doc -> doc !! "_id" = Some (VObjectId oid).
Proof.
  intros H. apply find_one_Some in H. apply matches_by_id. tauto.
Qed.

(** What the three handlers that fetch by identifier do, in one
    equation. *)
Lemma fetcher_run_eq (f : fetcher) (id : string) (w : World) :
  fetcher_run f id w =
  match db w with
  | None => (Raise (HTTPException 500 "Database not configured"), w)
  | Some _ =>
      match ObjectId id with
      | Raise e => (Raise e, w)
      | Return oid =>
          (match fetched w (fetcher_collection f) oid with
           | Some doc => Return (_as_str_id doc)
           | None => Raise (HTTPException 404 (fetcher_detail f))
           end,
           record (FindOne (fetcher_collection f) (by_id oid)) w)
      end
  end.
Proof.
  destruct w as [[d|] j].
  - destruct f; cbn [fetcher_run fetcher_collection fetcher_detail];
      unfold get_student, get_certificate, get_idcard, mbind, M_bind, _collection, lift;
      cbn [db]; (destruct (ObjectId id) as [oid|e]; [|reflexivity]);
      unfold Collection.find_one;
      change (Mongo.find_one [("_id", Is (VObjectId oid))] (stored (mkWorld (Some d) j) ?n))
        with (fetched (mkWorld (Some d) j) n oid);
      (match goal with
       | |- context [fetched ?w ?n ?o] =>
           destruct (fetched w n o) as [doc|] eqn:E; [|reflexivity];
           apply fetched_id in E;
           rewrite bool_decide_eq_false_2;
           [reflexivity | intros ->; rewrite lookup_empty in E; discriminate]
       end).
  - destruct f; reflexivity.
Qed.

(** X4. [get_student], [get_certificate] and [get_idcard] on an existing
    document return it with its identifier as the hexadecimal string in
    [id] and without [_id], the other fields as stored; they read once
    and leave the store as it was. *)
Theorem fetch_existing (f : fetcher) (id : string) (w : World)
    (oid : list N) (doc : document) :
  ObjectId id = Return oid ->
  fetched w (fetcher_collection f) oid = Some doc ->
  exists (r : document) (w' : World),
    fetcher_run f id w = (Return r, w') /\
    r !! "id" = Some (VStr (hexlify oid)) /\
    r !! "_id" = None /\
    (forall field : string,
       field <> "_id" -> field <> "id" -> r !! field = doc !! field) /\
    db w' = db w /\
    journal w' = (journal w ++ [FindOne (fetcher_collection f) (by_id oid)])%list.
Proof.
  intros Hoid Hdoc. rewrite fetcher_run_eq, Hoid, Hdoc.
  assert (Hdb : exists d, db w = Some d).
  { unfold fetched, stored in Hdoc. destruct (db w); [eauto | discriminate]. }
  destruct Hdb as [d Hd]. rewrite Hd.
  destruct (as_str_id_lookup doc) as (H1 & H2 & H3).
  rewrite (fetched_id _ _ _ _ Hdoc) in H2.
  eexists _, _. split; [reflexivity|]. unfold record. cbn [db journal].
  repeat split; auto.
Qed.

Lemma fetch_existing_witness :
  exists (r : document) (w' : World),
    fetcher_run Fstudent Scenario.sid Scenario.fresh = (Return r, w') /\
    r !! "id" = Some (VStr (hexlify Scenario.oid)) /\
    r !! "_id" = None /\
    (forall field : string,
       field <> "_id" -> field <> "id" ->
       r !! field = Scenario.student "engineering" !! field) /\
    db w' = db Scenario.fresh /\
    journal w' = (journal Scenario.fresh
                  ++ [FindOne (fetcher_collection Fstudent) (by_id Scenario.oid)])%list.
Proof.
  apply (fetch_existing Fstudent Scenario.sid Scenario.fresh Scenario.oid
           (Scenario.student "engineering")).
  - reflexivity.
  - reflexivity.
Defined.

(** X5. The same three handlers fail without a write and with the store
    unchanged when the identifier selects nothing: 404 with the
    handler's own detail for a well-formed identifier in a configured
    store, the unhandled InvalidId (500) for a malformed one, and 500
    without a store. *)
Theorem fetch_unknown (f : fetcher) (id : string) (w : World) :
  (forall oid, ObjectId id = Return oid -> fetched w (fetcher_collection f) oid = None) ->
  exists (e : exn) (w' : World),
    fetcher_run f id w = (Raise e, w') /\
    db w' = db w /\
    writes (journal w') = writes (journal w) /\
    (forall d oid, db w = Some d -> ObjectId id = Return oid ->
                   e = HTTPException 404 (fetcher_detail f)) /\
    (forall d, db w = Some d -> ObjectId id = Raise InvalidId -> e = InvalidId) /\
    (db w = None -> e = HTTPException 500 "Database not configured").
Proof.
  intros Hnone. rewrite fetcher_run_eq.
  destruct (db w) as [d|] eqn:Hdb.
  - destruct (ObjectId id) as [oid|e] eqn:Hoid.
    + rewrite (Hnone oid eq_refl). eexists _, _. split; [reflexivity|].
      cbn [db journal record]. split; [exact Hdb|]. split.
      * unfold writes. rewrite List.filter_app. cbn. apply app_nil_r.
      * repeat split; intros; congruence.
    + eexists _, _. split; [reflexivity|].
      repeat split; intros; congruence.
  - eexists _, _. split; [reflexivity|].
    repeat split; intros; congruence.
Qed.

Lemma fetch_unknown_witness :
  (forall oid, ObjectId "S1" = Return oid ->
               fetched Scenario.fresh (fetcher_collection Fcertificate) oid = None) /\
  exists (e : exn) (w' : World),
    fetcher_run Fcertificate "S1" Scenario.fresh = (Raise e, w') /\
    db w' = db Scenario.fresh /\
    writes (journal w') = writes (journal Scenario.fresh) /\
    (forall d oid, db Scenario.fresh = Some d -> ObjectId "S1" = Return oid ->
                   e = HTTPException 404 (fetcher_detail Fcertificate)) /\
    (forall d, db Scenario.fresh = Some d -> ObjectId "S1" = Raise InvalidId ->
               e = InvalidId) /\
    (db Scenario.fresh = None -> e = HTTPException 500 "Database not configured").
Proof.
  assert (H : forall oid, ObjectId "S1" = Return oid ->
                          fetched Scenario.fresh (fetcher_collection Fcertificate) oid = None).
  { intros oid Hoid. vm_compute in Hoid. discriminate. }
  split; [exact H|].
  exact (fetch_unknown Fcertificate "S1" Scenario.fresh H).
Defined.

(** X6. The identifier a fetch returns fetches the same document again:
    for a stored twelve-byte identifier, the string in [id] is accepted
    by the same handler and yields the same answer. *)
Theorem fetch_again (f : fetcher) (id : string) (w : World)
    (oid : list N) (doc : document) :
  ObjectId id = Return oid ->
  length oid = 12%nat ->
  fetched w (fetcher_collection f) oid = Some doc ->
  exists (r : document) (id' : string) (w1 w2 : World),
    fetcher_run f id w = (Return r, w1) /\
    r !! "id" = Some (VStr id') /\
    fetcher_run f id' w1 = (Return r, w2).
Proof.
  intros Hoid Hlen Hdoc.
  assert (Hdb : exists d, db w = Some d).
  { unfold fetched, stored in Hdoc. destruct (db w); [eauto | discriminate]. }
  destruct Hdb as [d Hd].
  pose proof (ObjectId_hexlify oid (ObjectId_octets _ _ Hoid) Hlen) as Hback.
  destruct (as_str_id_lookup doc) as (_ & H2 & _).
  rewrite (fetched_id _ _ _ _ Hdoc) in H2.
  exists (_as_str_id doc), (hexlify oid).
  eexists _, _. rewrite !fetcher_run_eq, Hd, Hoid, Hdoc.
  split; [reflexivity|]. split; [exact H2|].
  unfold record at 1. cbn [db]. rewrite Hd, Hback.
  change (fetched (record _ w) (fetcher_collection f) oid)
    with (fetched w (fetcher_collection f) oid).
  rewrite Hdoc. reflexivity.
Qed.

Lemma fetch_again_witness :
  exists (r : document) (id' : string) (w1 w2 : World),
    fetcher_run Fstudent Scenario.sid Scenario.fresh = (Return r, w1) /\
    r !! "id" = Some (VStr id') /\
    fetcher_run Fstudent id' w1 = (Return r, w2).
Proof.
  apply (fetch_again Fstudent Scenario.sid Scenario.fresh Scenario.oid
           (Scenario.student "engineering")).
  - reflexivity.
  - reflexivity.
  - reflexivity.
Defined.

(** X7. [get_resume] takes any string: with a configured store it never
    fails on the form of the identifier; it answers 200 with the first
    resume stored for that student, which carries that [student_id], or
    404 when there is none, and it writes nothing. *)
Theorem get_resume_answers (student_id : string) (w : World) (d : database) :
  db w = Some d ->
  exists w',
    db w' = db w /\ writes (journal w') = writes (journal w) /\
    match Mongo.find_one [("student_id", Is (VStr student_id))] (stored w "resume") with
    | Some doc =>
        get_resume student_id w = (Return (_as_str_id doc), w') /\
        _as_str_id doc !! "student_id" = Some (VStr student_id)
    | None =>
        get_resume student_id w = (Raise (HTTPException 404 "Resume not found"), w')
    end.
Proof.
  intros Hdb. destruct w as [dbw j]. cbn [db] in Hdb. subst dbw.
  unfold get_resume, mbind, M_bind, _collection, Collection.find_one. cbn [db].
  exists (record (FindOne "resume" [("student_id", Is (VStr student_id))])
            (mkWorld (Some d) j)).
  split; [reflexivity|]. split.
  { unfold record, writes. cbn [journal]. rewrite List.filter_app. cbn. apply app_nil_r. }
  destruct (Mongo.find_one _ _) as [doc|] eqn:E; [|reflexivity].
  apply find_one_Some in E. destruct E as [Hm _].
  unfold matches in Hm. cbn [forallb cond_holds] in Hm. rewrite andb_true_r in Hm.
  assert (Hsid : doc !! "student_id" = Some (VStr student_id)).
  { destruct (doc !! "student_id") as [v|]; cbn [cond_holds] in Hm;
      unfold value_eqb in Hm; apply bool_decide_eq_true in Hm; congruence. }
  rewrite bool_decide_eq_false_2
    by (intros ->; rewrite lookup_empty in Hsid; discriminate).
  split; [reflexivity|].
  destruct (as_str_id_lookup doc) as (_ & _ & H3). rewrite H3 by discriminate. exact Hsid.
Qed.

Lemma get_resume_answers_witness :
  exists w',
    db w' = db Scenario.fresh /\
    writes (journal w') = writes (journal Scenario.fresh) /\
    match Mongo.find_one [("student_id", Is (VStr "S1"))] (stored Scenario.fresh "resume") with
    | Some doc =>
        get_resume "S1" Scenario.fresh = (Return (_as_str_id doc), w') /\
        _as_str_id doc !! "student_id" = Some (VStr "S1")
    | None =>
        get_resume "S1" Scenario.fresh = (Raise (HTTPException 404 "Resume not found"), w')
    end.
Proof.
  apply (get_resume_answers "S1" Scenario.fresh
           (<["student" := [Scenario.student "engineering"]]> (<["attendancelog" := []]> ∅))).
  reflexivity.
Defined.

(* ===================================================================== *)
(** ** Beyond the specification: listings *)
(* ===================================================================== *)




















(** X10. [create_doubt] never answers without a text: it returns the
    identifier [create_document] gives and the answer of the payload when
    that is given and not empty, the placeholder otherwise, and the
    document it hands to [create_document] carries that same answer; a
    failure of [create_document] is passed on. *)
Theorem create_doubt_answer
    (create_document : string -> Schemas.Doubt -> M string)
    (payload : Schemas.Doubt) (w : World) :
  exists (stored_payload : Schemas.Doubt) (a : string),
    a <> EmptyString /\
    Schemas.answer stored_payload = Some a /\
    a = (if given (Schemas.answer payload)
         then default placeholder_answer (Schemas.answer payload)
         else placeholder_answer) /\
    Schemas.question stored_payload = Schemas.question payload /\
    match create_document "doubt" stored_payload w with
    | (Return _id, w') =>
        create_doubt create_document payload w
        = (Return (<["id" := VStr _id]> {[ "answer" := VStr a ]}), w')
    | (Raise e, w') =>
        create_doubt create_document payload w = (Raise e, w')
    end.
Proof.
  unfold create_doubt, mbind, M_bind.
  destruct (given (Schemas.answer payload)) eqn:Eg.
  - destruct payload as [u c q [[|ch s]|] i t]; try discriminate.
    exists (Schemas.Build_Doubt u c q (Some (String ch s)) i t), (String ch s).
    cbn [Schemas.answer Schemas.question].
    split; [discriminate|]. do 3 (split; [reflexivity|]).
    destruct (create_document _ _ w) as [[_id|e] w']; reflexivity.
  - exists (Schemas.Build_Doubt (Schemas.doubt_user_id payload)
              (Schemas.doubt_category payload) (Schemas.question payload)
              (Some placeholder_answer) (Schemas.images payload)
              (Schemas.created_at payload)), placeholder_answer.
    cbn [Schemas.answer Schemas.question].
    split; [discriminate|]. do 3 (split; [reflexivity|]).
    destruct (create_document _ _ w) as [[_id|e] w']; reflexivity.
Qed.

(* ===================================================================== *)
(** ** Beyond the specification: the lock, composed and framed *)
(* ===================================================================== *)

Lemma setLock_existing (w : World) (student_id : string) (locked : bool)
    (oid : list N) (student : document) :
  ObjectId student_id = Return oid ->
  student_of w oid = Some student ->
  exists w',
    setLock student_id locked w = (Return {[ "locked" := VBool locked ]}, w') /\
    student_of w' oid = Some (<["locked_for_attendance" := VBool locked]> student) /\
    (forall name, name <> "student" -> stored w' name = stored w name) /\
    journal w' = (journal w ++ [UpdateOne "student" (by_id oid)
                                  [("locked_for_attendance", VBool locked)]])%list.
Proof.
  intros Hoid Hst.
  destruct (stored_student_Some w oid student Hst) as [d Hdb].
  rewrite (setLock_run w d student_id locked oid Hdb Hoid).
  pose proof (student_of_id w oid student Hst) as Hid.
  unfold student_of in Hst.
  destruct (update_one_found (by_id oid) [("locked_for_attendance", VBool locked)] _ _ Hst)
    as (c' & Hup & Hfind).
  { apply set_lock_matches. apply matches_by_id. exact Hid. }
  rewrite Hup. cbn [fst snd Z.eqb].
  eexists. split; [reflexivity|]. split; [|split; [|reflexivity]].
  - unfold student_of, stored, coll. cbn [db]. rewrite lookup_insert_eq. exact Hfind.
  - intros name Hname. unfold stored, coll. cbn [db].
    rewrite lookup_insert_ne by congruence. rewrite Hdb. reflexivity.
Qed.

Lemma engineering_set_lock (b : bool) (student : document) :
  engineering (<["locked_for_attendance" := VBool b]> student) = engineering student.
Proof.
  unfold engineering, get. rewrite lookup_insert_ne by discriminate. reflexivity.
Qed.

(** X11. The rule overrides a manual setting: for an engineering student,
    whatever [setLock] stored, the next summary reports and stores the
    policy value [percentage < 75.0]. *)
Theorem rule_overrides_manual (w : World) (student_id : string) (locked : bool)
    (days utcnow : Z) (oid : list N) (student : document) :
  ObjectId student_id = Return oid ->
  student_of w oid = Some student ->
  engineering student = true ->
  exists (r : document) (w1 : World) (s : AttendanceSummary) (w2 : World),
    setLock student_id locked w = (Return r, w1) /\
    attendance_summary student_id days utcnow w1 = (Return s, w2) /\
    locked_for_attendance s = (percentage s <? 75)%float /\
    locked_of <$> student_of w2 oid = Some (percentage s <? 75)%float.
Proof.
  intros Hoid Hst Heng.
  destruct (setLock_existing w student_id locked oid student Hoid Hst)
    as (w1 & Hset & Hst1 & _).
  destruct (attendance_summary_outcome w1 student_id days utcnow oid _ Hoid Hst1)
    as (pct & w2 & student2 & _ & Hrun & _ & _ & _ & Hst2 & Hlock & _).
  unfold decided_lock in *. rewrite engineering_set_lock, Heng in *.
  eexists _, w1, _, w2. split; [exact Hset|]. split; [exact Hrun|].
  cbn [locked_for_attendance percentage]. split; [reflexivity|].
  rewrite Hst2. cbn [fmap option_fmap option_map]. congruence.
Qed.

Lemma rule_overrides_manual_witness :
  exists (r : document) (w1 : World) (s : AttendanceSummary) (w2 : World),
    setLock Scenario.sid false Scenario.unlocked = (Return r, w1) /\
    attendance_summary Scenario.sid 120 0 w1 = (Return s, w2) /\
    locked_for_attendance s = (percentage s <? 75)%float /\
    locked_of <$> student_of w2 Scenario.oid = Some (percentage s <? 75)%float.
Proof.
  apply (rule_overrides_manual Scenario.unlocked Scenario.sid false 120 0 Scenario.oid
           (Scenario.locked_student "engineering" false)).
  - reflexivity.
  - reflexivity.
  - reflexivity.
Defined.

(** X12. Of two manual settings in a row the last one wins: the record
    ends as the original with the second value in its lock field, and
    two writes were issued. *)
Theorem setLock_last_wins (w : World) (student_id : string) (first second : bool)
    (oid : list N) (student : document) :
  ObjectId student_id = Return oid ->
  student_of w oid = Some student ->
  exists (r1 r2 : document) (w1 w2 : World),
    setLock student_id first w = (Return r1, w1) /\
    setLock student_id second w1 = (Return r2, w2) /\
    r2 !! "locked" = Some (VBool second) /\
    student_of w2 oid = Some (<["locked_for_attendance" := VBool second]> student) /\
    length (writes (journal w2)) = (length (writes (journal w)) + 2)%nat.
Proof.
  intros Hoid Hst.
  destruct (setLock_existing w student_id first oid student Hoid Hst)
    as (w1 & Hset1 & Hst1 & _ & Hj1).
  destruct (setLock_existing w1 student_id second oid _ Hoid Hst1)
    as (w2 & Hset2 & Hst2 & _ & Hj2).
  eexists _, _, w1, w2. split; [exact Hset1|]. split; [exact Hset2|].
  split; [apply lookup_singleton_eq|]. split.
  - rewrite Hst2. f_equal. apply insert_insert_eq.
  - rewrite Hj2, Hj1. unfold writes. rewrite !List.filter_app, !length_app. cbn. lia.
Qed.

Lemma setLock_last_wins_witness :
  exists (r1 r2 : document) (w1 w2 : World),
    setLock Scenario.sid true Scenario.unlocked = (Return r1, w1) /\
    setLock Scenario.sid false w1 = (Return r2, w2) /\
    r2 !! "locked" = Some (VBool false) /\
    student_of w2 Scenario.oid
    = Some (<["locked_for_attendance" := VBool false]>
              (Scenario.locked_student "engineering" false)) /\
    length (writes (journal w2))
    = (length (writes (journal Scenario.unlocked)) + 2)%nat.
Proof.
  apply (setLock_last_wins Scenario.unlocked Scenario.sid true false Scenario.oid
           (Scenario.locked_student "engineering" false)).
  - reflexivity.
  - reflexivity.
Defined.

(** X19. In a configured store and for a well-formed identifier, a manual
    lock operation answers 404 exactly when no student record has that
    identifier, and then leaves the store untouched; otherwise it answers
    200. *)
Theorem setLock_not_found_iff (w : World) (d : database) (student_id : string)
    (locked : bool) (oid : list N) :
  db w = Some d ->
  ObjectId student_id = Return oid ->
  (http_status (fst (setLock student_id locked w)) = 404 <-> student_of w oid = None) /\
  (http_status (fst (setLock student_id locked w)) = 200 <-> student_of w oid <> None) /\
  (student_of w oid = None -> db (snd (setLock student_id locked w)) = db w).
Proof.
  intros Hdb Hoid. rewrite (setLock_run w d student_id locked oid Hdb Hoid).
  cbn [fst snd db]. unfold student_of.
  destruct (Mongo.find_one (by_id oid) (stored w "student")) as [doc|] eqn:E.
  - pose proof E as Hm. apply find_one_Some in Hm. destruct Hm as [Hm _].
    destruct (update_one_found (by_id oid) [("locked_for_attendance", VBool locked)] _ _ E)
      as (c' & Hup & _); [apply set_lock_matches; exact Hm|].
    rewrite Hup. cbn [snd Z.eqb http_status].
    repeat split; intros; try discriminate; try congruence; try lia.
  - rewrite (update_one_not_found _ _ _ E). cbn [snd Z.eqb http_status].
    repeat split; intros; try discriminate; try congruence; try lia.
Qed.

Lemma setLock_not_found_iff_witness :
  (http_status (fst (setLock Scenario.sid true Scenario.empty)) = 404
   <-> student_of Scenario.empty Scenario.oid = None) /\
  (http_status (fst (setLock Scenario.sid true Scenario.empty)) = 200
   <-> student_of Scenario.empty Scenario.oid <> None) /\
  (student_of Scenario.empty Scenario.oid = None ->
   db (snd (setLock Scenario.sid true Scenario.empty)) = db Scenario.empty).
Proof.
  apply (setLock_not_found_iff Scenario.empty
           (<["student" := []]> (<["attendancelog" := []]> ∅))
           Scenario.sid true Scenario.oid).
  - reflexivity.
  - reflexivity.
Defined.

Lemma update_one_other (oid oid' : list N) (b : bool) (c : collection) :
  oid <> oid' ->
  Mongo.find_one (by_id oid')
    (fst (Mongo.update_one (by_id oid) [("locked_for_attendance", VBool b)] c))
  = Mongo.find_one (by_id oid') c.
Proof.
  intros Hne. unfold Mongo.find_one.
  induction c as [|d c IH]; cbn [Mongo.update_one fst List.find]; [reflexivity|].
  destruct (matches (by_id oid) d) eqn:Ed.
  - cbn [fst List.find].
    assert (Hd : matches (by_id oid') d = false).
    { apply matches_by_id in Ed. destruct (matches (by_id oid') d) eqn:E; [|reflexivity].
      apply matches_by_id in E. congruence. }
    assert (Hd' : matches (by_id oid') (apply_set [("locked_for_attendance", VBool b)] d)
                  = false).
    { destruct (matches (by_id oid') (apply_set _ d)) eqn:E; [|reflexivity].
      apply matches_by_id in E. cbn [apply_set fold_left] in E.
      rewrite lookup_insert_ne in E by discriminate.
      apply matches_by_id in Ed. congruence. }
    rewrite Hd, Hd'. reflexivity.
  - destruct (Mongo.update_one (by_id oid) _ c) as [c' n] eqn:Eu. cbn [fst] in *.
    cbn [List.find]. rewrite IH. reflexivity.
Qed.

Lemma update_one_length (q : query) (u : update) (c : collection) :
  length (fst (Mongo.update_one q u c)) = length c.
Proof.
  induction c as [|d c IH]; cbn [Mongo.update_one]; [reflexivity|].
  destruct (matches q d); [reflexivity|].
  destruct (Mongo.update_one q u c) as [c' n]. cbn [fst length] in *. rewrite IH. reflexivity.
Qed.

Lemma stored_insert_eq (d : database) (name : string) (c : collection) (j : list call) :
  stored {| db := Some (<[name := c]> d); journal := j |} name = c.
Proof. unfold stored, coll. cbn [db]. rewrite lookup_insert_eq. reflexivity. Qed.

Lemma stored_insert_ne (d : database) (name name' : string) (c : collection)
    (j : list call) :
  name <> name' ->
  stored {| db := Some (<[name := c]> d); journal := j |} name' = coll d name'.
Proof.
  intros H. unfold stored, coll. cbn [db]. rewrite lookup_insert_ne by exact H. reflexivity.
Qed.

(** X13. A summary touches nothing but the lock field of the student it
    is about: every other field of that record, every other student,
    every other collection and the number of student records are as
    before. *)
Theorem summary_frame (w : World) (student_id : string) (days utcnow : Z)
    (oid : list N) (student : document) :
  ObjectId student_id = Return oid ->
  student_of w oid = Some student ->
  exists (s : AttendanceSummary) (w' : World) (student' : document),
    attendance_summary student_id days utcnow w = (Return s, w') /\
    student_of w' oid = Some student' /\
    (forall field, field <> "locked_for_attendance" -> student' !! field = student !! field) /\
    (forall oid', oid' <> oid -> student_of w' oid' = student_of w oid') /\
    (forall name, name <> "student" -> stored w' name = stored w name) /\
    length (stored w' "student") = length (stored w "student").
Proof.
  intros Hoid Hst.
  destruct (stored_student_Some w oid student Hst) as [d Hdb].
  destruct (percentage_of_returns
              (presences (retrieved w student_id days utcnow))
              (Z.of_nat (length (retrieved w student_id days utcnow))))
    as [pct Hpct]; [apply presences_bounds|].
  pose proof (attendance_summary_run w d student_id days utcnow oid student pct
                Hdb Hoid Hst Hpct) as Hrun.
  revert Hrun. destruct (rule_writes student pct); intros Hrun.
  - pose proof (student_of_id w oid student Hst) as Hid.
    pose proof Hst as Hst0. unfold student_of in Hst0.
    destruct (update_one_found (by_id oid) [("locked_for_attendance", VBool (pct <? 75)%float)]
                _ _ Hst0) as (c' & Hup & Hfind).
    { apply set_lock_matches. apply matches_by_id. exact Hid. }
    set (c1 := fst (Mongo.update_one (by_id oid)
                      [("locked_for_attendance", VBool (pct <? 75)%float)]
                      (stored w "student"))) in *.
    assert (F1 : Mongo.find_one (by_id oid) c1
                 = Some (apply_set [("locked_for_attendance", VBool (pct <? 75)%float)] student)).
    { unfold c1. rewrite Hup. exact Hfind. }
    assert (F2 : forall oid', oid' <> oid ->
                 Mongo.find_one (by_id oid') c1
                 = Mongo.find_one (by_id oid') (stored w "student")).
    { intros oid' Hne. apply update_one_other. congruence. }
    assert (F3 : length c1 = length (stored w "student")) by apply update_one_length.
    assert (F4 : forall name, name <> "student" -> coll d name = stored w name).
    { intros name _. unfold stored. rewrite Hdb. reflexivity. }
    clearbody c1.
    eexists _, _, _. split; [exact Hrun|].
    unfold student_of. rewrite !stored_insert_eq.
    split; [exact F1|]. split; [|split; [|split]].
    + intros field Hf. cbn [apply_set fold_left]. apply lookup_insert_ne. congruence.
    + exact F2.
    + intros name Hname. rewrite stored_insert_ne by congruence. apply (F4 name Hname).
    + exact F3.
  - eexists _, _, student. split; [exact Hrun|].
    unfold student_of, stored in *. cbn [db]. auto.
Qed.

Lemma summary_frame_witness :
  exists (s : AttendanceSummary) (w' : World) (student' : document),
    attendance_summary Scenario.sid 120 0 Scenario.unlocked = (Return s, w') /\
    student_of w' Scenario.oid = Some student' /\
    (forall field, field <> "locked_for_attendance" ->
                   student' !! field = Scenario.locked_student "engineering" false !! field) /\
    (forall oid', oid' <> Scenario.oid ->
                  student_of w' oid' = student_of Scenario.unlocked oid') /\
    (forall name, name <> "student" -> stored w' name = stored Scenario.unlocked name) /\
    length (stored w' "student") = length (stored Scenario.unlocked "student").
Proof.
  apply (summary_frame Scenario.unlocked Scenario.sid 120 0 Scenario.oid
           (Scenario.locked_student "engineering" false)).
  - reflexivity.
  - reflexivity.
Defined.

Lemma matches_window_mono (student_id : string) (days1 days2 utcnow : Z)
    (doc : document) :
  days1 <= days2 ->
  matches (window student_id days1 utcnow) doc = true ->
  matches (window student_id days2 utcnow) doc = true.
Proof.
  intros Hd. unfold matches, window. cbn [forallb]. rewrite !andb_true_r.
  rewrite !andb_true_iff. intros [H1 H2]. split; [exact H1|].
  destruct (doc !! "timestamp") as [[| | | | |t]|]; cbn [cond_holds] in *; try discriminate.
  apply Z.leb_le in H2. apply Z.leb_le.
  unfold datetime_to_millis, timedelta_days in *.
  assert (utcnow - days2 * 86400000000 <= utcnow - days1 * 86400000000) by lia.
  pose proof (Z.div_le_mono _ _ 1000 ltac:(lia) H). lia.
Qed.

Lemma filter_length_mono {A} (f g : A -> bool) (l : list A) :
  (forall x, f x = true -> g x = true) ->
  (length (List.filter f l) <= length (List.filter g l))%nat.
Proof.
  intros H. induction l as [|x l IH]; cbn [List.filter length]; [lia|].
  destruct (f x) eqn:Ef.
  - rewrite (H x Ef). cbn [length]. lia.
  - destruct (g x); cbn [length]; lia.
Qed.

Lemma filter_filter_comm {A} (f g : A -> bool) (l : list A) :
  List.filter f (List.filter g l) = List.filter g (List.filter f l).
Proof.
  induction l as [|x l IH]; cbn [List.filter]; [reflexivity|].
  destruct (g x) eqn:Eg, (f x) eqn:Ef; cbn [List.filter]; rewrite ?Eg, ?Ef, IH; reflexivity.
Qed.

(** X14. A longer window never counts less: for the same store and clock,
    the summary over more days has at least the total and at least the
    presences of the summary over fewer days. *)
Theorem window_monotone (w : World) (student_id : string) (days1 days2 utcnow : Z)
    (oid : list N) (student : document) :
  ObjectId student_id = Return oid ->
  student_of w oid = Some student ->
  days1 <= days2 ->
  exists (s1 s2 : AttendanceSummary) (w1 w2 : World),
    attendance_summary student_id days1 utcnow w = (Return s1, w1) /\
    attendance_summary student_id days2 utcnow w = (Return s2, w2) /\
    total s1 <= total s2 /\ present s1 <= present s2.
Proof.
  intros Hoid Hst Hdays.
  destruct (attendance_summary_outcome w student_id days1 utcnow oid student Hoid Hst)
    as (pct1 & w1 & st1 & _ & Hrun1 & _).
  destruct (attendance_summary_outcome w student_id days2 utcnow oid student Hoid Hst)
    as (pct2 & w2 & st2 & _ & Hrun2 & _).
  eexists _, _, w1, w2. split; [exact Hrun1|]. split; [exact Hrun2|].
  cbn [total present]. unfold presences, retrieved, Mongo.find.
  fold (window student_id days1 utcnow). fold (window student_id days2 utcnow).
  split.
  - apply inj_le. apply filter_length_mono. intros doc. apply matches_window_mono. exact Hdays.
  - apply inj_le.
    rewrite (filter_filter_comm counts_present (matches (window student_id days1 utcnow))).
    rewrite (filter_filter_comm counts_present (matches (window student_id days2 utcnow))).
    apply filter_length_mono. intros doc. apply matches_window_mono. exact Hdays.
Qed.

Lemma window_monotone_witness :
  exists (s1 s2 : AttendanceSummary) (w1 w2 : World),
    attendance_summary Scenario.sid 30 0 Scenario.unlocked = (Return s1, w1) /\
    attendance_summary Scenario.sid 120 0 Scenario.unlocked = (Return s2, w2) /\
    total s1 <= total s2 /\ present s1 <= present s2.
Proof.
  apply (window_monotone Scenario.unlocked Scenario.sid 30 120 0 Scenario.oid
           (Scenario.locked_student "engineering" false)).
  - reflexivity.
  - reflexivity.
  - lia.
Defined.

(* ===================================================================== *)
(** ** Beyond the specification: the range of the percentage *)
(* ===================================================================== *)








(* ===================================================================== *)
(** ** Beyond the specification: records built by the schemas *)
(* ===================================================================== *)


(** X18. A record dumped from the [AttendanceLog] schema carries the
    student, a status string and a date, and counts as present exactly
    when its status is present. *)
Theorem AttendanceLog_dump_counts (a : Schemas.AttendanceLog) :
  Schemas.model_dump a !! "student_id" = Some (VStr (Schemas.student_id a)) /\
  Schemas.model_dump a !! "status" = Some (VStr (Schemas.Status_str (Schemas.status a))) /\
  Schemas.model_dump a !! "timestamp"
  = Some (VDate (datetime_to_millis (Schemas.timestamp a))) /\
  (counts_present (Schemas.model_dump a) = true
   <-> Schemas.status a = Schemas.status_present).
Proof.
  assert (Hs : Schemas.model_dump a !! "status"
               = Some (VStr (Schemas.Status_str (Schemas.status a)))).
  { unfold Schemas.model_dump.
    repeat (rewrite lookup_insert_ne by discriminate). apply lookup_insert_eq. }
  split; [apply lookup_insert_eq|]. split; [exact Hs|]. split.
  - unfold Schemas.model_dump.
    repeat (rewrite lookup_insert_ne by discriminate). apply lookup_insert_eq.
  - rewrite counts_present_iff, Hs.
    destruct (Schemas.status a); cbn [Schemas.Status_str]; split;
      try reflexivity; intros H; try discriminate; auto.
    destruct H as [H | H]; discriminate.
Qed.
